(** * datasist.visualizations: plot orchestration

    A shallow embedding of [datasist/visualizations.py].  The module wraps a
    plotting library: every public function validates its arguments, resolves
    a feature list, and sends one group of rendering commands per feature.

    - A pandas [DataFrame] is an ordered list of named columns.
    - The plotting library (seaborn / matplotlib), [print] and IPython's
      [display] are external collaborators: the embedding records, in order,
      the commands sent to them.  A library call is logged when it is made;
      where the library is known to refuse a command (a variable name that is
      no column, two non-numeric variables of a box or violin chart, a label
      grouped twice) the call then raises.
    - The functions run in a small state-and-exception monad.  Its state holds
      the two caller-owned objects a call can mutate in place (the dataset and
      the feature list) and the command log; an exception leaves the state as
      it was when it was raised, which is what the caller observes. *)

From Stdlib Require Import List String Ascii ZArith Bool Arith Lia.
Import ListNotations.
Local Open Scope string_scope.
Local Open Scope list_scope.

(* ===================================================================== *)
(** ** Python values and exceptions                                        *)
(* ===================================================================== *)

Module Py.

(** The class of an exception raised inside pandas or seaborn while they
    carry out a command. *)
Inductive library_error : Type :=
| LibValueError
| LibTypeError.

(** The exception classes that reach the caller of this module.  The first
    four are raised by the module's own statements and carry their text;
    [FromLibrary] is a [ValueError] or [TypeError] raised inside a library
    call, whose text is the library's and is not modelled. *)
Inductive exn : Type :=
| ValueError (msg : string)
| AttributeError (msg : string)
| KeyError (key : option string)
| TypeError (msg : string)
| FromLibrary (cls : library_error).

(** The exceptions the module raises itself, from its validation guards,
    are [ValueError] and [AttributeError]; [KeyError] and [TypeError] come
    from a failed subscript, [FromLibrary] from inside a library call. *)
Definition invalid_argument (e : exn) : bool :=
  match e with
  | ValueError _ | AttributeError _ => true
  | KeyError _ | TypeError _ | FromLibrary _ => false
  end.

(** [str(x)] for an argument that is a string or [None]. *)
Definition str (o : option string) : string :=
  match o with
  | Some s => s
  | None => "None"
  end.

Definition newline : string := String (ascii_of_nat 10) EmptyString.

Definition not_in_list : string := "list.remove(x): x not in list".

(** [l.remove(x)]: drops the first element equal to [x], raises
    [ValueError] when there is none. *)
Fixpoint list_remove (x : string) (l : list string) : exn + list string :=
  match l with
  | [] => inl (ValueError not_in_list)
  | y :: r =>
      if String.eqb x y then inr r
      else match list_remove x r with
           | inr r' => inr (y :: r')
           | inl e => inl e
           end
  end.

(** [try: l.remove(x) / except: pass], with [x] a string or [None]: the
    bare [except] swallows the [ValueError].  A list of column names has no
    element equal to [None], so removing [None] raises as well. *)
Definition try_remove (x : option string) (l : list string) : list string :=
  match x with
  | Some s => match list_remove s l with
              | inr l' => l'
              | inl _ => l
              end
  | None => l
  end.

(** [enumerate(l)] *)
Fixpoint enumerate_from {A : Type} (i : nat) (l : list A) : list (nat * A) :=
  match l with
  | [] => []
  | x :: r => (i, x) :: enumerate_from (S i) r
  end.

Definition enumerate {A : Type} (l : list A) : list (nat * A) :=
  enumerate_from 0 l.

End Py.

(* ===================================================================== *)
(** ** The pandas objects the module touches                               *)
(* ===================================================================== *)

Module Pandas.
Import Py.

(** A cell: a label, a number, or a missing value. *)
Inductive value : Type :=
| VStr (s : string)
| VNum (z : Z)
| VNaN.

Definition value_eqb (a b : value) : bool :=
  match a, b with
  | VStr s, VStr t => String.eqb s t
  | VNum x, VNum y => Z.eqb x y
  | VNaN, VNaN => true
  | _, _ => false
  end.

Definition Series : Type := list value.

(** [nrows] is the length of the index ([data.shape[0]]); column names are
    unique. *)
Record DataFrame : Type := mkDataFrame
  { nrows : nat;
    cols : list (string * Series) }.

(** [data.columns] *)
Definition columns (df : DataFrame) : list string := map fst (cols df).

Definition mem_string (c : string) (l : list string) : bool :=
  existsb (String.eqb c) l.

(** [c in data.columns] *)
Definition has_column (df : DataFrame) (c : string) : bool :=
  mem_string c (columns df).

Fixpoint lookup (c : string) (l : list (string * Series)) : option Series :=
  match l with
  | [] => None
  | (k, s) :: r => if String.eqb c k then Some s else lookup c r
  end.

(** [data[key]] where [data] may be [None] and [key] may be [None]. *)
Definition getitem (data : option DataFrame) (key : option string)
  : exn + Series :=
  match data with
  | None => inl (TypeError "'NoneType' object is not subscriptable")
  | Some df =>
      match key with
      | None => inl (KeyError None)
      | Some c =>
          match lookup c (cols df) with
          | Some s => inr s
          | None => inl (KeyError (Some c))
          end
      end
  end.

Definition mem_value (v : value) (l : list value) : bool :=
  existsb (value_eqb v) l.

(** [s.unique()]: the distinct values, in order of first appearance. *)
Fixpoint unique_from (seen : list value) (s : Series) : list value :=
  match s with
  | [] => []
  | v :: r =>
      if mem_value v seen then unique_from seen r
      else v :: unique_from (v :: seen) r
  end.

Definition unique (s : Series) : list value := unique_from [] s.

(** [np.ones(shape = n)] *)
Definition ones (n : nat) : Series := repeat (VNum 1) n.

Fixpoint replace_column (c : string) (s : Series) (l : list (string * Series))
  : list (string * Series) :=
  match l with
  | [] => []
  | (k, old) :: r =>
      if String.eqb c k then (k, s) :: r
      else (k, old) :: replace_column c s r
  end.

(** [data[c] = s]: overwrites the column when it exists, appends it as the
    last column otherwise. *)
Definition setitem (df : DataFrame) (c : string) (s : Series) : DataFrame :=
  if has_column df c
  then mkDataFrame (nrows df) (replace_column c s (cols df))
  else mkDataFrame (nrows df) (cols df ++ [(c, s)]).

(** [data.drop([c], axis=1, inplace=True)] *)
Definition drop (df : DataFrame) (c : string) : exn + DataFrame :=
  if has_column df c
  then inr (mkDataFrame (nrows df)
              (filter (fun kv => negb (String.eqb c (fst kv))) (cols df)))
  else inl (KeyError (Some c)).

(** Whether the plotting library takes a column for a numeric variable: it
    holds no label (missing values do not count against it). *)
Definition numeric (s : Series) : bool :=
  forallb (fun v => match v with VStr _ => false | _ => true end) s.


Definition label_eqb (a b : option string) : bool :=
  match a, b with
  | Some x, Some y => String.eqb x y
  | None, None => true
  | _, _ => false
  end.

(** How often a label occurs in a selection. *)
Definition count_label (k : option string) (selected : list (option string))
  : nat :=
  List.length (filter (label_eqb k) selected).

(** [data[selected].groupby(keys, as_index=False)], the columns of
    [selected] being known to exist: a label selected twice yields two
    columns of that name, and a key that names two columns is refused with
    a [ValueError]. *)
Definition groupby (selected keys : list (option string)) : exn + unit :=
  if existsb (fun k => (1 <? count_label k selected)%nat) keys
  then inl (FromLibrary LibValueError)
  else inr tt.

End Pandas.

(* ===================================================================== *)
(** ** Commands sent to the outside                                        *)
(* ===================================================================== *)

Module Plt.
Import Pandas.

Inductive event : Type :=
| Print (s : string)                                   (* print(s) *)
| Display (feature : string)                           (* display(DataFrame(data[feature].value_counts())) *)
| Figure (fig_size : nat * nat)                        (* plt.figure(figsize=fig_size) *)
| Subplot (nrow ncol idx : nat)                        (* plt.subplot(nrow, ncol, idx) *)
| SetStyle (style : string)                            (* sns.set_style(style) *)
| SnsCountplot (x : string) (hue : option string)
| SnsHeatmap
| SnsBoxenplot (x y : string)
| SnsBoxplot (x y : string)
| SnsViolinplot (x y : string)
| SnsDistplot (feature : string) (bins : option nat)
| SnsBarplot (x y : string) (target : string) (cat : value)
| SnsScatterplot (x y : string) (hue : option string)
| Xticks (rotation : nat)
| Xlabel (s : string)
| Ylabel (s : string)
| Title (s : string)
| CatTitle (feature : string) (cat : value)            (* plt.title('Counts for {} \n class {}'.format(feature, cat)) *)
| TightLayout (pad : nat)
| SaveFig (name : string)
| Show.

(** The feature a chart-drawing command renders, if the command is one. *)
Definition rendered (e : event) : option string :=
  match e with
  | SnsCountplot x _ => Some x
  | SnsBoxenplot _ y | SnsBoxplot _ y | SnsViolinplot _ y => Some y
  | SnsDistplot f _ => Some f
  | SnsBarplot x _ _ _ => Some x
  | SnsScatterplot x _ _ => Some x
  | _ => None
  end.

(** The features rendered by a log, in order, one entry per chart. *)
Fixpoint rendered_features (t : list event) : list string :=
  match t with
  | [] => []
  | e :: r =>
      match rendered e with
      | Some f => f :: rendered_features r
      | None => rendered_features r
      end
  end.


End Plt.

(* ===================================================================== *)
(** ** What seaborn refuses                                                *)
(* ===================================================================== *)

Module Seaborn.
Import Py Pandas.

Definition columns_of (data : option DataFrame) : list string :=
  match data with
  | Some df => columns df
  | None => []
  end.

(** A variable given by name ([x], [y], [hue]) is looked up in [data]; a
    name that is no column is refused with a [ValueError].  [None] stands for
    a variable that is not used. *)
Definition interpret (data : option DataFrame) (names : list (option string))
  : exn + unit :=
  if forallb (fun o => match o with
                       | None => true
                       | Some c => mem_string c (columns_of data)
                       end) names
  then inr tt
  else inl (FromLibrary LibValueError).

(** The box, boxen and violin charts need a numeric variable: once both
    names are found, two variables that both hold labels are refused with a
    [TypeError]. *)
Definition categorical (data : option DataFrame) (x y : string) : exn + unit :=
  match interpret data [Some x; Some y] with
  | inl e => inl e
  | inr _ =>
      match getitem data (Some x), getitem data (Some y) with
      | inr sx, inr sy =>
          if numeric sx || numeric sy then inr tt
          else inl (FromLibrary LibTypeError)
      | _, _ => inl (FromLibrary LibValueError)
      end
  end.

End Seaborn.

(* ===================================================================== *)
(** ** The call monad                                                      *)
(* ===================================================================== *)

Module Call.
Import Py Pandas Plt.

(** What a call can change and what its caller can observe afterwards. *)
Record world : Type := mkWorld
  { w_data : option DataFrame;        (* the object passed as [data] *)
    w_list : option (list string);    (* the list object passed as the feature list *)
    w_out : list event }.             (* commands issued so far, oldest first *)

Definition M (A : Type) : Type := world -> (exn + A) * world.

Definition ret {A : Type} (a : A) : M A := fun w => (inr a, w).

Definition bind {A B : Type} (m : M A) (k : A -> M B) : M B :=
  fun w =>
    match m w with
    | (inr a, w') => k a w'
    | (inl e, w') => (inl e, w')
    end.

Definition raise {A : Type} (e : exn) : M A := fun w => (inl e, w).

(** Lifts the outcome of a pure operation that may raise. *)
Definition lift {A : Type} (r : exn + A) : M A := fun w => (r, w).

Definition log (evs : list event) (w : world) : world :=
  mkWorld (w_data w) (w_list w) (w_out w ++ evs).

Definition emit (e : event) : M unit := fun w => (inr tt, log [e] w).

(** In-place update of the dataset object. *)
Definition store_data (df : DataFrame) : M unit :=
  fun w => (inr tt, mkWorld (Some df) (w_list w) (w_out w)).

(** In-place update of the caller's list object. *)
Definition store_list (l : list string) : M unit :=
  fun w => (inr tt, mkWorld (w_data w) (Some l) (w_out w)).

Definition when (b : bool) (m : M unit) : M unit :=
  if b then m else ret tt.

(** [for x in l: body(x)] *)
Fixpoint for_each {A : Type} (l : list A) (body : A -> M unit) : M unit :=
  match l with
  | [] => ret tt
  | x :: r => bind (body x) (fun _ => for_each r body)
  end.

(** The state a call starts in: the caller's objects and an empty log. *)
Definition enter (data : option DataFrame) (features : option (list string))
  : world :=
  mkWorld data features [].

End Call.

Declare Scope call_scope.
Delimit Scope call_scope with call.
Notation "x <- m ;; k" := (Call.bind m (fun x => k))
  (at level 61, m at next level, right associativity) : call_scope.
Notation "m ;; k" := (Call.bind m (fun _ => k))
  (at level 61, right associativity) : call_scope.

(* ===================================================================== *)
(** ** Sample datasets                                                     *)
(* ===================================================================== *)

Module Samples.
Import Pandas.

Definition labels (l : list string) : Series := map VStr l.

(** [0, 1, ..., n-1] *)
Definition arange (n : nat) : Series := map (fun i => VNum (Z.of_nat i)) (seq 0 n).

(** A seven-class target and a two-class feature. *)
Definition seven_classes : DataFrame :=
  mkDataFrame 7
    [ ("t", labels ["A"; "B"; "C"; "D"; "E"; "F"; "G"]);
      ("f", labels ["x"; "y"; "x"; "y"; "x"; "y"; "x"]) ].

(** A target column with eleven distinct strings and a numeric column. *)
Definition eleven_classes : DataFrame :=
  mkDataFrame 11
    [ ("t", labels ["a"; "b"; "c"; "d"; "e"; "f"; "g"; "h"; "i"; "j"; "k"]);
      ("n", arange 11) ].

(** [wide] has 31 distinct values, [narrow] has two. *)
Definition thirty_one : DataFrame :=
  mkDataFrame 31
    [ ("wide", arange 31);
      ("narrow", map (fun i => VNum (Z.of_nat (i mod 2))) (seq 0 31)) ].

(** Seven target classes, each seen twice, next to a feature with 14
    distinct values. *)
Definition seven_by_many : DataFrame :=
  mkDataFrame 14
    [ ("t", labels ["A"; "B"; "C"; "D"; "E"; "F"; "G";
                    "A"; "B"; "C"; "D"; "E"; "F"; "G"]);
      ("g", arange 14) ].

(** A two-class target next to a column that is already named like the
    counting column of [catbox]. *)
Definition with_counter : DataFrame :=
  mkDataFrame 4
    [ ("t", labels ["a"; "b"; "a"; "b"]);
      ("dummy_count", arange 4) ].

(** A stand-in for the feature inference of [structdata]: every column. *)
Definition every_column (df : DataFrame) : list string := columns df.

End Samples.

(* ===================================================================== *)
(** ** visualizations.py                                                   *)
(* ===================================================================== *)

Import Py Pandas Plt Call.
Local Open Scope call_scope.

Section Visualizations.

Set Default Proof Using "Type".

(** [structdata.get_cat_feats] and [structdata.get_num_feats] live in a
    sibling module; the functions below only call them. *)
Variable get_cat_feats : DataFrame -> list string.
Variable get_num_feats : DataFrame -> list string.

Definition data_is_none : string :=
  "data: Expecting a DataFrame or Series, got 'None'".

(** [len(data[key].unique())] *)
Definition nunique (data : option DataFrame) (key : option string) : M nat :=
  s <- lift (getitem data key) ;;
  ret (List.length (unique s)).

(** One pass of the [countplot] loop. *)
Definition countplot_body (data : option DataFrame) (separate_by : option string)
    (fig_size : nat * nat) (save_fig : bool) (feature : string) : M unit :=
  n <- nunique data (Some feature) ;;
  if (30 <? n)%nat then
    emit (Print ("Unique Values in " ++ feature ++ " is too large to plot")) ;;
    emit (Print newline)
  else
    emit (Figure fig_size) ;;
    emit (SnsCountplot feature separate_by) ;;
    lift (Seaborn.interpret data [Some feature; separate_by]) ;;
    emit (Xticks 90) ;;
    emit (Title ("Count plot for " ++ feature)) ;;
    when save_fig (emit (SaveFig ("Countplot_" ++ feature))).

Definition countplot (data : option DataFrame) (cat_features : option (list string))
    (separate_by : option string) (fig_size : nat * nat) (save_fig : bool)
  : M unit :=
  match data with
  | None => raise (ValueError data_is_none)
  | Some df =>
      let cat_features :=
        match cat_features with
        | None => get_cat_feats df
        | Some l => l
        end in
      for_each cat_features (countplot_body data separate_by fig_size save_fig)
  end.

Definition plot_missing (data : option DataFrame) : M unit :=
  match data with
  | None => raise (ValueError data_is_none)
  | Some _ => emit SnsHeatmap ;; emit Show
  end.

(** One pass of either [boxplot] loop. *)
Definition boxplot_body (data : option DataFrame) (large_data : bool)
    (target : string) (fig_size : nat * nat) (save_fig : bool)
    (feature : string) : M unit :=
  emit (Figure fig_size) ;;
  emit (SetStyle "whitegrid") ;;
  emit (if large_data then SnsBoxenplot target feature
        else SnsBoxplot target feature) ;;
  lift (Seaborn.categorical data target feature) ;;
  emit (Ylabel feature) ;;
  emit (Xlabel target) ;;
  emit (Xticks 90) ;;
  emit (Title (if large_data
               then "Box plot of " ++ feature ++ " against " ++ target
               else "Box plot of '" ++ feature ++ "' vs. '" ++ target ++ "'")) ;;
  when save_fig (emit (SaveFig ("fig_" ++ feature ++ "_vs_" ++ target))) ;;
  emit Show.

Definition boxplot (data : option DataFrame) (num_features : option (list string))
    (target : option string) (fig_size : nat * nat) (large_data save_fig : bool)
  : M unit :=
  match target with
  | None => raise (ValueError "Target value cannot be None")
  | Some t =>
      n <- nunique data target ;;
      if (10 <? n)%nat then raise (AttributeError "Target categories must be less than 10")
      else
        match data with
        | None => raise (ValueError data_is_none)
        | Some df =>
            let num_features :=
              match num_features with
              | None => get_num_feats df
              | Some l => l
              end in
            for_each num_features
              (boxplot_body data large_data t fig_size save_fig)
        end
  end.

Definition violinplot_body (data : option DataFrame) (target : string)
    (fig_size : nat * nat) (save_fig : bool) (feature : string) : M unit :=
  emit (Figure fig_size) ;;
  emit (SetStyle "whitegrid") ;;
  emit (SnsViolinplot target feature) ;;
  lift (Seaborn.categorical data target feature) ;;
  emit (Xticks 90) ;;
  emit (Ylabel feature) ;;
  emit (Xlabel target) ;;
  emit (Title ("Violin plot of '" ++ feature ++ "' vs. '" ++ target ++ "'")) ;;
  when save_fig (emit (SaveFig ("fig_" ++ feature ++ "_vs_" ++ target))) ;;
  emit Show.

Definition violinplot (data : option DataFrame) (num_features : option (list string))
    (target : option string) (fig_size : nat * nat) (save_fig : bool)
  : M unit :=
  match target with
  | None => raise (ValueError "Target value cannot be None")
  | Some t =>
      n <- nunique data target ;;
      if (10 <? n)%nat then raise (AttributeError "Target categories must be less than 10")
      else
        match data with
        | None => raise (ValueError data_is_none)
        | Some df =>
            let num_features :=
              match num_features with
              | None => get_num_feats df
              | Some l => l
              end in
            for_each num_features (violinplot_body data t fig_size save_fig)
        end
  end.

Definition histogram_body (data : option DataFrame) (bins : option nat)
    (show_dist_type : bool) (fig_size : nat * nat) (save_fig : bool)
    (feature : string) : M unit :=
  emit (Figure fig_size) ;;
  _ <- lift (getitem data (Some feature)) ;;
  emit (SnsDistplot feature bins) ;;
  emit (Xlabel feature) ;;
  emit (Ylabel "Count") ;;
  (if show_dist_type then ret tt
   else emit (Title ("Histogram of " ++ feature))) ;;
  when save_fig (emit (SaveFig ("fig_hist_" ++ feature))) ;;
  emit Show.

Definition histogram (data : option DataFrame) (num_features : option (list string))
    (bins : option nat) (show_dist_type : bool) (fig_size : nat * nat)
    (save_fig : bool) : M unit :=
  match data with
  | None => raise (ValueError data_is_none)
  | Some df =>
      let num_features :=
        match num_features with
        | None => get_num_feats df
        | Some l => l
        end in
      for_each num_features
        (histogram_body data bins show_dist_type fig_size save_fig)
  end.

Definition dummy_count : string := "dummy_count".

(** One subplot of [catbox]: the bar chart of one target class. *)
Definition catbox_subplot (feature : string) (target : option string)
    (ncats : nat) (save_fig : bool) (ic : nat * value) : M unit :=
  let (i, cat) := ic in
  emit (Subplot 1 ncats (i + 1)) ;;
  emit (SnsBarplot feature dummy_count (str target) cat) ;;
  emit (Xticks 90) ;;
  emit (CatTitle feature cat) ;;
  emit (Ylabel "count") ;;
  emit (TightLayout 2) ;;
  when save_fig (emit (SaveFig ("fig_catbox_" ++ feature))).

(** One pass of the [catbox] loop; [data] already holds the counting
    column.  The grouped counts are read from the three selected columns:
    the selection fails on a missing column, the grouping on a label
    selected twice. *)
Definition catbox_body (data : option DataFrame) (target : option string)
    (fig_size : nat * nat) (save_fig : bool) (feature : string) : M unit :=
  n <- nunique data (Some feature) ;;
  if (10 <? n)%nat then
    emit (Print (feature ++ " feature has too many categories and will not be ploted"))
  else
    _ <- lift (getitem data (Some dummy_count)) ;;
    _ <- lift (getitem data target) ;;
    _ <- lift (getitem data (Some feature)) ;;
    _ <- lift (groupby [Some dummy_count; target; Some feature]
                 [target; Some feature]) ;;
    s <- lift (getitem data target) ;;
    let cats := unique s in
    if (6 <? List.length cats)%nat then
      raise (ValueError ("Target column: '" ++ str target
                         ++ "' must contain less than six unique classes"))
    else
      emit (Figure fig_size) ;;
      for_each (enumerate cats)
        (catbox_subplot feature target (List.length cats) save_fig).

Definition catbox (data : option DataFrame) (cat_features : option (list string))
    (target : option string) (fig_size : nat * nat) (save_fig : bool)
  : M unit :=
  match data with
  | None => raise (ValueError data_is_none)
  | Some df =>
      cat_features <-
        match cat_features with
        | None =>
            (* a fresh list, private to the call *)
            ret (try_remove target (get_cat_feats df))
        | Some l =>
            (* the caller's list object, changed in place *)
            let l' := try_remove target l in
            store_list l' ;; ret l'
        end ;;
      n <- nunique data target ;;
      if (8 <? n)%nat then
        raise (AttributeError "Target categories must be less than seven")
      else
        let df1 := setitem df dummy_count (ones (nrows df)) in
        store_data df1 ;;
        for_each cat_features (catbox_body (Some df1) target fig_size save_fig) ;;
        df2 <- lift (drop df1 dummy_count) ;;
        store_data df2
  end.

Definition class_count_body (data : option DataFrame) (feature : string)
  : M unit :=
  emit (Print ("Class Count for " ++ feature)) ;;
  _ <- lift (getitem data (Some feature)) ;;
  emit (Display feature).

Definition class_count (data : option DataFrame)
    (cat_features : option (list string)) (plot save_fig : bool) : M unit :=
  match data with
  | None => raise (ValueError data_is_none)
  | Some df =>
      let cat_features :=
        match cat_features with
        | None => get_cat_feats df
        | Some l => l
        end in
      for_each cat_features (class_count_body data) ;;
      if plot then countplot data (Some cat_features) None (5, 5) save_fig
      else ret tt
  end.

Definition scatterplot_body (data : option DataFrame) (target : string)
    (separate_by : option string) (fig_size : nat * nat) (save_fig : bool)
    (feature : string) : M unit :=
  emit (Figure fig_size) ;;
  emit (SnsScatterplot feature target separate_by) ;;
  lift (Seaborn.interpret data [Some feature; Some target; separate_by]) ;;
  emit (Title ("Scatter Plot of '" ++ feature ++ "' vs. '" ++ target
               ++ "' " ++ newline ++ " Separated by: '" ++ str separate_by ++ "'")) ;;
  when save_fig (emit (SaveFig ("fig_scatterplot_" ++ feature))).

Definition scatterplot (data : option DataFrame)
    (num_features : option (list string)) (target separate_by : option string)
    (fig_size : nat * nat) (save_fig : bool) : M unit :=
  match data with
  | None => raise (ValueError data_is_none)
  | Some df =>
      match separate_by with
      | None => ret tt
      | Some s =>
          if has_column df s then ret tt
          else raise (ValueError (s ++ " not found in data columns"))
      end ;;
      match target with
      | None => raise (ValueError "Target value cannot be None")
      | Some t =>
          let num_features :=
            match num_features with
            | None => get_num_feats df
            | Some l => l
            end in
          for_each num_features
            (scatterplot_body data t separate_by fig_size save_fig)
      end
  end.

(** The feature list a call works on: the one given, or the inferred one. *)
Definition effective (infer : DataFrame -> list string) (df : DataFrame)
    (features : option (list string)) : list string :=
  match features with
  | None => infer df
  | Some l => l
  end.


(** *** Vocabulary for the statements *)

(** The distinct-value count of a column ([0] for a name that is not one). *)
Definition distinct (df : DataFrame) (c : string) : nat :=
  match lookup c (cols df) with
  | Some s => List.length (unique s)
  | None => 0
  end.

Definition too_large (feature : string) : string :=
  "Unique Values in " ++ feature ++ " is too large to plot".

(** What one pass of the [countplot] loop sends out for a column. *)
Definition countplot_block (df : DataFrame) (separate_by : option string)
    (fig_size : nat * nat) (save_fig : bool) (feature : string) : list event :=
  if (30 <? distinct df feature)%nat then
    [Print (too_large feature); Print newline]
  else
    [Figure fig_size; SnsCountplot feature separate_by; Xticks 90;
     Title ("Count plot for " ++ feature)]
    ++ (if save_fig then [SaveFig ("Countplot_" ++ feature)] else []).


(** What one pass of the [class_count] loop sends out for a column. *)
Definition class_count_block (feature : string) : list event :=
  [Print ("Class Count for " ++ feature); Display feature].

(** What one pass of the [scatterplot] loop sends out. *)
Definition scatterplot_block (target : string) (separate_by : option string)
    (fig_size : nat * nat) (save_fig : bool) (feature : string) : list event :=
  [Figure fig_size; SnsScatterplot feature target separate_by;
   Title ("Scatter Plot of '" ++ feature ++ "' vs. '" ++ target
          ++ "' " ++ newline ++ " Separated by: '" ++ str separate_by ++ "'")]
  ++ (if save_fig then [SaveFig ("fig_scatterplot_" ++ feature)] else []).

(** [target] is unset, or names a column of [data] with more than 10
    distinct values. *)
Definition bad_target (data : option DataFrame) (target : option string) : Prop :=
  match target, data with
  | None, _ => True
  | Some t, Some df => 10 < distinct df t
  | Some _, None => False
  end.

(** The exception the target guards of [boxplot] and [violinplot] raise. *)
Definition target_error (target : option string) : exn :=
  match target with
  | None => ValueError "Target value cannot be None"
  | Some _ => AttributeError "Target categories must be less than 10"
  end.

Definition not_subscriptable : exn :=
  TypeError "'NoneType' object is not subscriptable".

(** [separate_by] is unset or names a column. *)
Definition known_separator (df : DataFrame) (separate_by : option string) : Prop :=
  match separate_by with
  | None => True
  | Some s => In s (columns df)
  end.

(** Every exception [m] can raise satisfies [P]. *)
Definition may_raise {A : Type} (P : exn -> Prop) (m : M A) : Prop :=
  forall w e, fst (m w) = inl e -> P e.

(** The exceptions [boxplot] and [violinplot] can raise. *)
Definition box_exn (e : exn) : Prop :=
  e = ValueError "Target value cannot be None"
  \/ e = AttributeError "Target categories must be less than 10"
  \/ e = not_subscriptable
  \/ (exists k, e = KeyError k)
  \/ exists cls, e = FromLibrary cls.

(** The state [catbox] is in after its list removal. *)
Definition after_remove (df : DataFrame) (cat_features : option (list string))
    (target : option string) : world :=
  mkWorld (Some df)
    (match cat_features with
     | None => None
     | Some l => Some (try_remove target l)
     end) [].

(** The list [catbox] loops over. *)
Definition catbox_features (df : DataFrame) (cat_features : option (list string))
    (target : option string) : list string :=
  try_remove target (effective get_cat_feats df cat_features).

(** The dataset with the counting column of [catbox] added. *)
Definition with_dummy (df : DataFrame) : DataFrame :=
  setitem df dummy_count (ones (nrows df)).

(** The exceptions [catbox] can raise on a dataset. *)
Definition catbox_exn (e : exn) : Prop :=
  e = AttributeError "Target categories must be less than seven"
  \/ (exists t, e = ValueError ("Target column: '" ++ t
                                ++ "' must contain less than six unique classes"))
  \/ e = not_subscriptable
  \/ (exists k, e = KeyError k)
  \/ exists cls, e = FromLibrary cls.

(** The state [catbox] is in when its loop starts. *)
Definition loop_start (df : DataFrame) (cat_features : option (list string))
    (target : option string) : world :=
  mkWorld (Some (with_dummy df)) (w_list (after_remove df cat_features target)) [].

(** A computation that only appends to the log or raises: it leaves both
    caller-owned objects alone. *)
Definition only_logs {A : Type} (m : M A) : Prop :=
  forall w, w_data (snd (m w)) = w_data w /\ w_list (snd (m w)) = w_list w.



(** An exception raised inside a library call. *)
Definition from_library (e : exn) : Prop := exists cls, e = FromLibrary cls.


(** Every command [m] issues satisfies [P], whether [m] returns or raises. *)
Definition emits_only {A : Type} (P : event -> Prop) (m : M A) : Prop :=
  forall w, exists t, w_out (snd (m w)) = w_out w ++ t /\ Forall P t.

(** Anything but [plt.savefig]. *)
Definition not_savefig (e : event) : Prop :=
  match e with
  | SaveFig _ => False
  | _ => True
  end.

(** A command that draws no chart. *)
Definition draws_nothing (e : event) : Prop := rendered e = None.

(** The last character of a string. *)
Fixpoint last_char (s : string) : option ascii :=
  match s with
  | EmptyString => None
  | String c EmptyString => Some c
  | String _ r => last_char r
  end.






(* ------------------------------------------------------------------- *)
(** *** The monad and the loop                                           *)
(* ------------------------------------------------------------------- *)

Lemma log_nil (w : world) : log [] w = w.
Proof. destruct w; unfold log; simpl; now rewrite app_nil_r. Qed.

Lemma log_app (a b : list event) (w : world) : log b (log a w) = log (a ++ b) w.
Proof. unfold log; simpl; now rewrite app_assoc. Qed.

Lemma bind_ok {A B : Type} (m : M A) (k : A -> M B) (w w' : world) (a : A) :
  m w = (inr a, w') -> bind m k w = k a w'.
Proof. intros H; unfold bind; now rewrite H. Qed.

Lemma bind_raise {A B : Type} (m : M A) (k : A -> M B) (w w' : world) (e : exn) :
  m w = (inl e, w') -> bind m k w = (inl e, w').
Proof. intros H; unfold bind; now rewrite H. Qed.


(** A loop stops at the first pass that raises. *)
Lemma for_each_raises {A : Type} (block : A -> list event) (body : A -> M unit) :
  forall (l1 l2 : list A) (x : A) (e : exn) (t : list event),
    (forall y, In y l1 -> forall w, body y w = (inr tt, log (block y) w)) ->
    (forall w, body x w = (inl e, log t w)) ->
    forall w, for_each (l1 ++ x :: l2) body w
              = (inl e, log (flat_map block l1 ++ t) w).
Proof.
  induction l1 as [|y r IH]; intros l2 x e t Hb Hx w; simpl.
  - now rewrite (bind_raise _ _ w (log t w) e) by apply Hx.
  - rewrite (bind_ok _ _ w (log (block y) w) tt) by (apply Hb; now left).
    rewrite (IH l2 x e t) by (auto; intros z Hz; apply Hb; now right).
    now rewrite log_app, app_assoc.
Qed.

Lemma only_logs_bind {A B : Type} (m : M A) (k : A -> M B) :
  only_logs m -> (forall a, only_logs (k a)) -> only_logs (bind m k).
Proof.
  intros Hm Hk w; unfold bind.
  destruct (Hm w) as [Hd Hl]; destruct (m w) as [[e|a] w'] eqn:E; simpl in *.
  - now split.
  - destruct (Hk a w') as [Hd' Hl']; split; congruence.
Qed.

Lemma only_logs_emit (e : event) : only_logs (emit e).
Proof. intros w; now split. Qed.

Lemma only_logs_ret {A : Type} (a : A) : only_logs (ret a).
Proof. intros w; now split. Qed.

Lemma only_logs_raise {A : Type} (e : exn) : only_logs (@raise A e).
Proof. intros w; now split. Qed.

Lemma only_logs_lift {A : Type} (r : exn + A) : only_logs (lift r).
Proof. intros w; now split. Qed.

Lemma only_logs_when (b : bool) (m : M unit) : only_logs m -> only_logs (when b m).
Proof. destruct b; simpl; auto using only_logs_ret. Qed.

Lemma only_logs_for_each {A : Type} (body : A -> M unit) (l : list A) :
  (forall x, only_logs (body x)) -> only_logs (for_each l body).
Proof.
  intros Hb; induction l as [|x r IH]; simpl.
  - apply only_logs_ret.
  - apply only_logs_bind; auto.
Qed.

Ltac frame :=
  repeat (first [ apply only_logs_bind; [ | intros ? ]
                | apply only_logs_for_each; intros ?
                | apply only_logs_when
                | apply only_logs_emit | apply only_logs_ret
                | apply only_logs_raise | apply only_logs_lift
                | match goal with
                  | |- only_logs (if ?b then _ else _) => destruct b
                  | |- only_logs (let (_, _) := ?p in _) => destruct p
                  end ]).

Lemma catbox_body_only_logs data target fig_size save_fig feature :
  only_logs (catbox_body data target fig_size save_fig feature).
Proof. unfold catbox_body, nunique, catbox_subplot; frame. Qed.

(* ------------------------------------------------------------------- *)
(** *** Columns and logs                                                 *)
(* ------------------------------------------------------------------- *)

Lemma in_columns_lookup (df : DataFrame) (c : string) :
  In c (columns df) -> exists s, lookup c (cols df) = Some s.
Proof.
  unfold columns; induction (cols df) as [|[k s] r IH]; simpl; intros H.
  - contradiction.
  - destruct (String.eqb c k) eqn:E; eauto.
    destruct H as [H|H]; auto.
    subst k; now rewrite String.eqb_refl in E.
Qed.

Lemma lookup_in_columns (df : DataFrame) (c : string) (s : Series) :
  lookup c (cols df) = Some s -> In c (columns df).
Proof.
  unfold columns; induction (cols df) as [|[k s'] r IH]; simpl; intros H.
  - discriminate.
  - destruct (String.eqb c k) eqn:E; auto.
    apply String.eqb_eq in E; now left.
Qed.

Lemma not_in_columns_lookup (df : DataFrame) (c : string) :
  ~ In c (columns df) -> lookup c (cols df) = None.
Proof.
  intros H; destruct (lookup c (cols df)) eqn:E; auto.
  exfalso; eauto using lookup_in_columns.
Qed.

Lemma has_column_in (df : DataFrame) (c : string) :
  has_column df c = true <-> In c (columns df).
Proof.
  unfold has_column, mem_string; rewrite existsb_exists; split.
  - intros [k [Hk E]]; apply String.eqb_eq in E; now subst.
  - intros H; exists c; split; auto; apply String.eqb_refl.
Qed.

Lemma distinct_positive_is_column (df : DataFrame) (c : string) (n : nat) :
  n < distinct df c -> exists s, lookup c (cols df) = Some s
                                 /\ distinct df c = List.length (unique s).
Proof.
  unfold distinct; destruct (lookup c (cols df)) as [s|]; intros H.
  - now exists s.
  - inversion H.
Qed.


Lemma rendered_features_app (a b : list event) :
  rendered_features (a ++ b) = rendered_features a ++ rendered_features b.
Proof.
  induction a as [|e r IH]; simpl; auto.
  destruct (rendered e); simpl; now rewrite IH.
Qed.

Lemma rendered_features_flat_map {A : Type} (block : A -> list event) (l : list A) :
  rendered_features (flat_map block l)
  = flat_map (fun x => rendered_features (block x)) l.
Proof.
  induction l as [|x r IH]; simpl; auto.
  now rewrite rendered_features_app, IH.
Qed.

Lemma flat_map_selects (keep : string -> bool) (g : string -> list string)
    (l : list string) :
  (forall x, In x l -> g x = if keep x then [x] else []) ->
  flat_map g l = filter keep l.
Proof.
  induction l as [|x r IH]; simpl; intros H; auto.
  rewrite (H x) by now left.
  rewrite IH by (intros y Hy; apply H; now right).
  now destruct (keep x).
Qed.



(* ------------------------------------------------------------------- *)
(** *** Library calls                                                    *)
(* ------------------------------------------------------------------- *)

Lemma interpret_accepts df (names : list (option string)) :
  (forall c, In (Some c) names -> In c (columns df)) ->
  Seaborn.interpret (Some df) names = inr tt.
Proof.
  intros H; unfold Seaborn.interpret.
  replace (forallb _ names) with true; auto.
  symmetry; apply forallb_forall; intros [c|] Hc; auto.
  apply has_column_in, H, Hc.
Qed.

Lemma interpret_refuses df (names : list (option string)) c :
  In (Some c) names -> ~ In c (columns df) ->
  Seaborn.interpret (Some df) names = inl (FromLibrary LibValueError).
Proof.
  intros Hin Hc; unfold Seaborn.interpret.
  destruct (forallb _ names) eqn:E; auto.
  rewrite forallb_forall in E; specialize (E _ Hin); simpl in E.
  exfalso; apply Hc; now apply has_column_in.
Qed.

(** A library call raises nothing but a library error. *)
Lemma interpret_raises data names e :
  Seaborn.interpret data names = inl e -> e = FromLibrary LibValueError.
Proof.
  unfold Seaborn.interpret; destruct (forallb _ names); intros H;
    inversion H; auto.
Qed.

Lemma categorical_raises data x y e :
  Seaborn.categorical data x y = inl e -> exists cls, e = FromLibrary cls.
Proof.
  unfold Seaborn.categorical.
  destruct (Seaborn.interpret data [Some x; Some y]) as [e'|[]] eqn:E.
  - intros H; inversion H; subst; apply interpret_raises in E; eauto.
  - destruct (getitem data (Some x)), (getitem data (Some y));
      try (intros H; inversion H; eauto; fail).
    destruct (numeric s || numeric s0); intros H; inversion H; eauto.
Qed.

Lemma groupby_raises selected keys e :
  groupby selected keys = inl e -> e = FromLibrary LibValueError.
Proof.
  unfold groupby; destruct (existsb _ keys); intros H; inversion H; auto.
Qed.

Lemma known_separator_names df separate_by (names : list string) :
  known_separator df separate_by ->
  (forall c, In c names -> In c (columns df)) ->
  forall c, In (Some c) (map Some names ++ [separate_by]) -> In c (columns df).
Proof.
  intros Hs Hn c H; apply in_app_or in H; destruct H as [H|[H|[]]].
  - apply in_map_iff in H; destruct H as [x [E Hx]]; inversion E; subst; auto.
  - subst separate_by; exact Hs.
Qed.

(* ------------------------------------------------------------------- *)
(** *** countplot                                                        *)
(* ------------------------------------------------------------------- *)

Ltac step := unfold bind, lift, ret, raise, emit, when; simpl.

Lemma countplot_body_logs df separate_by fig_size save_fig feature :
  known_separator df separate_by ->
  In feature (columns df) ->
  forall w, countplot_body (Some df) separate_by fig_size save_fig feature w
            = (inr tt, log (countplot_block df separate_by fig_size save_fig feature) w).
Proof.
  intros Hk Hc w; destruct (in_columns_lookup _ _ Hc) as [s Hs].
  assert (Hi : Seaborn.interpret (Some df) [Some feature; separate_by] = inr tt).
  { apply interpret_accepts.
    apply (known_separator_names df separate_by [feature] Hk).
    intros c [<-|[]]; exact Hc. }
  unfold countplot_body, countplot_block, nunique, distinct.
  rewrite Hi; unfold getitem; rewrite Hs; step.
  destruct (30 <? List.length (unique s))%nat; [|destruct save_fig];
    step; now rewrite ?log_app.
Qed.


Lemma countplot_body_missing df separate_by fig_size save_fig feature :
  ~ In feature (columns df) ->
  forall w, countplot_body (Some df) separate_by fig_size save_fig feature w
            = (inl (KeyError (Some feature)), log [] w).
Proof.
  intros Hc w; rewrite log_nil.
  unfold countplot_body, nunique, getitem.
  now rewrite (not_in_columns_lookup _ _ Hc).
Qed.






(* ------------------------------------------------------------------- *)
(** *** histogram                                                        *)
(* ------------------------------------------------------------------- *)






(* ------------------------------------------------------------------- *)
(** *** class_count                                                      *)
(* ------------------------------------------------------------------- *)

Lemma class_count_body_logs df feature :
  In feature (columns df) ->
  forall w, class_count_body (Some df) feature w
            = (inr tt, log (class_count_block feature) w).
Proof.
  intros Hc w; destruct (in_columns_lookup _ _ Hc) as [s Hs].
  unfold class_count_body, class_count_block, getitem.
  step; rewrite Hs; step; now rewrite ?log_app.
Qed.

Lemma class_count_body_missing df feature :
  ~ In feature (columns df) ->
  forall w, class_count_body (Some df) feature w
            = (inl (KeyError (Some feature)),
               log [Print ("Class Count for " ++ feature)] w).
Proof.
  intros Hc w; unfold class_count_body, getitem.
  step; now rewrite (not_in_columns_lookup _ _ Hc).
Qed.




(* ------------------------------------------------------------------- *)
(** *** Which exceptions a computation can raise                         *)
(* ------------------------------------------------------------------- *)

Lemma may_raise_bind {A B : Type} (P : exn -> Prop) (m : M A) (k : A -> M B) :
  may_raise P m -> (forall a, may_raise P (k a)) -> may_raise P (bind m k).
Proof.
  intros Hm Hk w e; unfold bind.
  specialize (Hm w); destruct (m w) as [[e'|a] w']; simpl in *.
  - intros H; inversion H; subst; now apply Hm.
  - apply Hk.
Qed.

Lemma may_raise_ret {A : Type} (P : exn -> Prop) (a : A) : may_raise P (ret a).
Proof. intros w e H; discriminate H. Qed.

Lemma may_raise_emit (P : exn -> Prop) (ev : event) : may_raise P (emit ev).
Proof. intros w e H; discriminate H. Qed.

Lemma may_raise_raise {A : Type} (P : exn -> Prop) (e : exn) :
  P e -> may_raise P (@raise A e).
Proof. intros H w e' E; inversion E; now subst. Qed.

Lemma may_raise_lift {A : Type} (P : exn -> Prop) (r : exn + A) :
  (forall e, r = inl e -> P e) -> may_raise P (lift r).
Proof. intros H w e E; apply H; exact E. Qed.

Lemma may_raise_when (P : exn -> Prop) (b : bool) (m : M unit) :
  may_raise P m -> may_raise P (when b m).
Proof. destruct b; simpl; auto using may_raise_ret. Qed.

Lemma may_raise_for_each {A : Type} (P : exn -> Prop) (body : A -> M unit)
    (l : list A) :
  (forall x, may_raise P (body x)) -> may_raise P (for_each l body).
Proof.
  intros Hb; induction l as [|x r IH]; simpl.
  - apply may_raise_ret.
  - apply may_raise_bind; auto.
Qed.

Ltac raises :=
  repeat (first [ apply may_raise_bind; [ | intros ? ]
                | apply may_raise_for_each; intros ?
                | apply may_raise_when
                | apply may_raise_emit | apply may_raise_ret
                | match goal with
                  | |- may_raise _ (if ?b then _ else _) => destruct b
                  | |- may_raise _ (let _ := _ in _) => cbv zeta
                  end ]).

(** A failed subscript raises [TypeError] on [None] and [KeyError] on an
    unknown key, nothing else. *)
Lemma getitem_raises data key e :
  getitem data key = inl e ->
  e = not_subscriptable \/ exists k, e = KeyError k.
Proof.
  unfold getitem; destruct data as [df|]; [|intros H; inversion H; now left].
  destruct key as [c|]; [destruct (lookup c (cols df))|]; intros H;
    inversion H; right; eauto.
Qed.

(* ------------------------------------------------------------------- *)
(** *** boxplot and violinplot                                           *)
(* ------------------------------------------------------------------- *)

Lemma box_exn_categorical data x y e :
  Seaborn.categorical data x y = inl e -> box_exn e.
Proof.
  intros H; apply categorical_raises in H; unfold box_exn; auto 6.
Qed.

(** A pass of the plotting loop raises nothing but what the library
    raises. *)
Lemma boxplot_body_raises data large_data target fig_size save_fig feature :
  may_raise box_exn
    (boxplot_body data large_data target fig_size save_fig feature).
Proof.
  unfold boxplot_body; raises; apply may_raise_lift, box_exn_categorical.
Qed.

Lemma violinplot_body_raises data target fig_size save_fig feature :
  may_raise box_exn (violinplot_body data target fig_size save_fig feature).
Proof.
  unfold violinplot_body; raises; apply may_raise_lift, box_exn_categorical.
Qed.

Lemma box_exn_getitem data key e : getitem data key = inl e -> box_exn e.
Proof.
  intros H; unfold box_exn; destruct (getitem_raises _ _ _ H); auto.
Qed.

Lemma boxplot_raises data num_features target fig_size large_data save_fig :
  may_raise box_exn
    (boxplot data num_features target fig_size large_data save_fig).
Proof.
  unfold boxplot, nunique; destruct target as [t|].
  - destruct data as [df|].
    + raises;
        first [ apply may_raise_lift, box_exn_getitem
              | apply may_raise_lift, box_exn_categorical
              | apply may_raise_raise; unfold box_exn; now auto 6
              | apply boxplot_body_raises ].
    + intros w e H; simpl in H; inversion H; unfold box_exn; auto.
  - apply may_raise_raise; unfold box_exn; auto.
Qed.

Lemma violinplot_raises data num_features target fig_size save_fig :
  may_raise box_exn (violinplot data num_features target fig_size save_fig).
Proof.
  unfold violinplot, nunique; destruct target as [t|].
  - destruct data as [df|].
    + raises;
        first [ apply may_raise_lift, box_exn_getitem
              | apply may_raise_lift, box_exn_categorical
              | apply may_raise_raise; unfold box_exn; now auto 6
              | apply violinplot_body_raises ].
    + intros w e H; simpl in H; inversion H; unfold box_exn; auto.
  - apply may_raise_raise; unfold box_exn; auto.
Qed.

Lemma box_exn_not_data_is_none : ~ box_exn (ValueError data_is_none).
Proof.
  unfold box_exn, not_subscriptable, data_is_none.
  intros [H|[H|[H|[[k H]|[cls H]]]]]; discriminate H.
Qed.

Lemma bad_target_guard data target (A : Type) (k : nat -> M A) w :
  bad_target data target ->
  forall t, target = Some t ->
    bind (nunique data target)
      (fun n => if (10 <? n)%nat
                then raise (AttributeError "Target categories must be less than 10")
                else k n) w
    = (inl (target_error target), w).
Proof.
  intros Hb t ->; simpl in *; destruct data as [df|]; [|contradiction].
  destruct (distinct_positive_is_column _ _ _ Hb) as [s [Hs Hd]].
  unfold nunique, getitem; rewrite Hs; step.
  rewrite Hd in Hb; apply Nat.ltb_lt in Hb; now rewrite Hb.
Qed.

(** C2.  When [target] is unset, or names a column with more than 10
    distinct values, [boxplot] and [violinplot] raise from their target
    guard ([ValueError] for the unset target, [AttributeError] for the
    cardinality), both raised by the module's own validation; the state
    the call ends in is the state it started in, so nothing has been
    drawn. *)
Theorem boxplot_violinplot_reject_bad_target :
  forall (data : option DataFrame) (num_features : option (list string))
         (target : option string) (fig_size : nat * nat)
         (large_data save_fig : bool),
    bad_target data target ->
    boxplot data num_features target fig_size large_data save_fig
      (enter data num_features)
    = (inl (target_error target), enter data num_features) /\
    violinplot data num_features target fig_size save_fig
      (enter data num_features)
    = (inl (target_error target), enter data num_features) /\
    invalid_argument (target_error target) = true /\
    w_out (enter data num_features) = [].
Proof.
  intros data num_features target fig_size large_data save_fig Hb.
  unfold boxplot, violinplot; destruct target as [t|].
  - rewrite !(bad_target_guard data (Some t)) with (t := t) by auto.
    repeat split.
  - repeat split.
Qed.

(** C10.  With a target given and [data] being [None], [boxplot] and
    [violinplot] fail at the subscript [data[target]] of the cardinality
    check, with a [TypeError], which is not one of the module's
    invalid-argument errors; and on no input at all does either function
    raise the missing-data error of the guard that follows. *)
Theorem missing_data_guard_is_dead :
  forall (num_features : option (list string)) (t : string)
         (fig_size : nat * nat) (large_data save_fig : bool),
    (forall w, boxplot None num_features (Some t) fig_size large_data save_fig w
               = (inl not_subscriptable, w)) /\
    (forall w, violinplot None num_features (Some t) fig_size save_fig w
               = (inl not_subscriptable, w)) /\
    invalid_argument not_subscriptable = false /\
    not_subscriptable <> ValueError data_is_none /\
    (forall data target w,
       fst (boxplot data num_features target fig_size large_data save_fig w)
       <> inl (ValueError data_is_none)) /\
    (forall data target w,
       fst (violinplot data num_features target fig_size save_fig w)
       <> inl (ValueError data_is_none)).
Proof.
  intros num_features t fig_size large_data save_fig.
  split; [reflexivity|]; split; [reflexivity|]; split; [reflexivity|].
  split; [discriminate|]; split; intros data target w H;
    apply box_exn_not_data_is_none.
  - exact (boxplot_raises _ _ _ _ _ _ _ _ H).
  - exact (violinplot_raises _ _ _ _ _ _ _ H).
Qed.


(* ------------------------------------------------------------------- *)
(** *** scatterplot                                                      *)
(* ------------------------------------------------------------------- *)


(** A target that is no column: the figure is opened and the chart
    requested, then the library refuses. *)
Lemma scatterplot_body_refused df target separate_by fig_size save_fig feature :
  ~ In target (columns df) ->
  forall w, scatterplot_body (Some df) target separate_by fig_size save_fig feature w
            = (inl (FromLibrary LibValueError),
               log [Figure fig_size; SnsScatterplot feature target separate_by] w).
Proof.
  intros Ht w.
  assert (Hi : Seaborn.interpret (Some df) [Some feature; Some target; separate_by]
               = inl (FromLibrary LibValueError)).
  { apply (interpret_refuses df _ target); simpl; auto. }
  unfold scatterplot_body; rewrite Hi; step; now rewrite ?log_app.
Qed.

Lemma scatterplot_separator_check_passes df separate_by w :
  known_separator df separate_by ->
  match separate_by with
  | None => ret tt
  | Some s => if has_column df s then ret tt
              else raise (ValueError (s ++ " not found in data columns"))
  end w = (inr tt, w).
Proof.
  intros Hs; destruct separate_by as [s|]; auto.
  simpl in Hs; apply has_column_in in Hs; now rewrite Hs.
Qed.

(** The separator check: an unknown separator is refused at once. *)
Lemma scatterplot_unknown_separator df num_features target s fig_size save_fig :
  ~ In s (columns df) ->
  forall w, scatterplot (Some df) num_features target (Some s) fig_size save_fig w
            = (inl (ValueError (s ++ " not found in data columns")), w).
Proof.
  intros Hs w; unfold scatterplot.
  destruct (has_column df s) eqn:E.
  - apply has_column_in in E; contradiction.
  - reflexivity.
Qed.


(** Past the separator check, [scatterplot] does not look the target up:
    a target that is no column reaches the plotting library with the first
    feature, and the library refuses it. *)
Lemma scatterplot_unknown_target df num_features t separate_by fig_size save_fig
    (f0 : string) (rest : list string) :
  known_separator df separate_by ->
  ~ In t (columns df) ->
  effective get_num_feats df num_features = f0 :: rest ->
  forall w,
    scatterplot (Some df) num_features (Some t) separate_by fig_size save_fig w
    = (inl (FromLibrary LibValueError),
       log [Figure fig_size; SnsScatterplot f0 t separate_by] w).
Proof.
  intros Hs Ht E w; unfold scatterplot.
  rewrite (bind_ok _ _ _ _ _ (scatterplot_separator_check_passes df _ w Hs)).
  change (match num_features with
          | Some l => l
          | None => get_num_feats df
          end) with (effective get_num_feats df num_features).
  rewrite E; simpl.
  apply bind_raise, scatterplot_body_refused, Ht.
Qed.

(** With nothing to plot, the target is never used. *)
Lemma scatterplot_without_features df num_features t separate_by fig_size save_fig :
  known_separator df separate_by ->
  effective get_num_feats df num_features = [] ->
  forall w,
    scatterplot (Some df) num_features (Some t) separate_by fig_size save_fig w
    = (inr tt, w).
Proof.
  intros Hs E w; unfold scatterplot.
  rewrite (bind_ok _ _ _ _ _ (scatterplot_separator_check_passes df _ w Hs)).
  change (match num_features with
          | Some l => l
          | None => get_num_feats df
          end) with (effective get_num_feats df num_features).
  now rewrite E.
Qed.

Lemma rendered_scatterplot_log t separate_by fig_size save_fig (l : list string) :
  rendered_features (flat_map (scatterplot_block t separate_by fig_size save_fig) l)
  = l.
Proof.
  rewrite rendered_features_flat_map.
  rewrite (flat_map_selects (fun _ => true)).
  - induction l as [|x r IH]; simpl; congruence.
  - intros f _; unfold scatterplot_block; now destruct save_fig.
Qed.

(* ------------------------------------------------------------------- *)
(** *** catbox                                                           *)
(* ------------------------------------------------------------------- *)

Lemma list_remove_absent (x : string) (l : list string) :
  ~ In x l -> list_remove x l = inl (ValueError not_in_list).
Proof.
  induction l as [|y r IH]; simpl; intros H; auto.
  destruct (String.eqb x y) eqn:E.
  - apply String.eqb_eq in E; subst; exfalso; apply H; now left.
  - rewrite IH; auto.
Qed.

(** [remove] takes out the first occurrence and nothing else. *)
Lemma list_remove_present (x : string) (l : list string) :
  In x l ->
  exists before after,
    l = before ++ x :: after /\ ~ In x before
    /\ list_remove x l = inr (before ++ after).
Proof.
  induction l as [|y r IH]; simpl; intros H; [contradiction|].
  destruct (String.eqb x y) eqn:E.
  - apply String.eqb_eq in E; subst y.
    exists [], r; repeat split; auto.
  - apply String.eqb_neq in E.
    destruct H as [H|H]; [congruence|].
    destruct (IH H) as [b [a [Hl [Hn Hr]]]].
    exists (y :: b), a; simpl; rewrite Hr; repeat split.
    + now rewrite Hl.
    + intros [F|F]; [congruence | contradiction].
Qed.

(** [catbox] on a dataset, unfolded up to its cardinality guard. *)
Lemma catbox_unfold df cat_features target fig_size save_fig :
  catbox (Some df) cat_features target fig_size save_fig
    (enter (Some df) cat_features)
  = bind (nunique (Some df) target)
      (fun n =>
         if (8 <? n)%nat then
           raise (AttributeError "Target categories must be less than seven")
         else
           store_data (with_dummy df) ;;
           for_each (catbox_features df cat_features target)
             (catbox_body (Some (with_dummy df)) target fig_size save_fig) ;;
           df2 <- lift (drop (with_dummy df) dummy_count) ;;
           store_data df2)
      (after_remove df cat_features target).
Proof. unfold catbox; destruct cat_features; reflexivity. Qed.

Lemma catbox_unknown_target df cat_features t fig_size save_fig :
  ~ In t (columns df) ->
  catbox (Some df) cat_features (Some t) fig_size save_fig
    (enter (Some df) cat_features)
  = (inl (KeyError (Some t)), after_remove df cat_features (Some t)).
Proof.
  intros Ht; rewrite catbox_unfold.
  unfold nunique, getitem; now rewrite (not_in_columns_lookup _ _ Ht).
Qed.

(** Nothing after the removal touches the list object. *)
Lemma catbox_list_after df cat_features target fig_size save_fig :
  w_list (snd (catbox (Some df) cat_features target fig_size save_fig
                 (enter (Some df) cat_features)))
  = match cat_features with
    | None => None
    | Some l => Some (try_remove target l)
    end.
Proof.
  rewrite catbox_unfold.
  set (w0 := after_remove df cat_features target).
  change (match cat_features with
          | None => None
          | Some l => Some (try_remove target l)
          end) with (w_list w0).
  generalize w0; clear w0; intros w0.
  unfold bind at 1; unfold nunique, bind, lift, ret.
  destruct (getitem (Some df) target) as [e|s]; simpl; auto.
  destruct (8 <? List.length (unique s))%nat; simpl; auto.
  unfold store_data at 1; simpl.
  set (w1 := mkWorld _ _ _).
  pose proof (only_logs_for_each
                (catbox_body (Some (with_dummy df)) target fig_size save_fig)
                (catbox_features df cat_features target)
                (catbox_body_only_logs _ _ _ _) w1) as [_ Hl].
  destruct (for_each _ _ w1) as [[e|[]] w2]; simpl in *; auto.
  destruct (drop (with_dummy df) dummy_count); simpl; auto.
Qed.

Lemma catbox_exn_getitem data key e : getitem data key = inl e -> catbox_exn e.
Proof.
  intros H; unfold catbox_exn; destruct (getitem_raises _ _ _ H); auto 6.
Qed.

Lemma catbox_exn_groupby selected keys e :
  groupby selected keys = inl e -> catbox_exn e.
Proof.
  intros H; apply groupby_raises in H; unfold catbox_exn; eauto 7.
Qed.

Lemma catbox_subplot_never_raises P feature target ncats save_fig ic :
  may_raise P (catbox_subplot feature target ncats save_fig ic).
Proof. unfold catbox_subplot; destruct ic; raises. Qed.

Lemma catbox_body_raises data target fig_size save_fig feature :
  may_raise catbox_exn (catbox_body data target fig_size save_fig feature).
Proof.
  unfold catbox_body, nunique.
  raises;
    first [ apply may_raise_lift, catbox_exn_getitem
          | apply may_raise_lift, catbox_exn_groupby
          | apply may_raise_raise; unfold catbox_exn; now eauto 7
          | apply catbox_subplot_never_raises ].
Qed.

Lemma drop_raises df c e : drop df c = inl e -> catbox_exn e.
Proof.
  unfold drop; destruct (has_column df c); intros H; inversion H.
  unfold catbox_exn; eauto 7.
Qed.

Lemma catbox_raises df cat_features target fig_size save_fig e :
  fst (catbox (Some df) cat_features target fig_size save_fig
         (enter (Some df) cat_features)) = inl e ->
  catbox_exn e.
Proof.
  rewrite catbox_unfold; revert e.
  generalize (after_remove df cat_features target); intros w e; revert w e.
  change (may_raise catbox_exn
    (bind (nunique (Some df) target)
      (fun n =>
         if (8 <? n)%nat then
           raise (AttributeError "Target categories must be less than seven")
         else
           store_data (with_dummy df) ;;
           for_each (catbox_features df cat_features target)
             (catbox_body (Some (with_dummy df)) target fig_size save_fig) ;;
           df2 <- lift (drop (with_dummy df) dummy_count) ;;
           store_data df2))).
  unfold nunique.
  raises;
    first [ apply may_raise_lift, catbox_exn_getitem
          | apply may_raise_lift, catbox_exn_groupby
          | apply may_raise_lift, drop_raises
          | apply may_raise_raise; unfold catbox_exn; now eauto 7
          | apply catbox_subplot_never_raises
          | intros w e H; discriminate H ].
Qed.

Lemma not_in_list_is_swallowed : ~ catbox_exn (ValueError not_in_list).
Proof.
  unfold catbox_exn, not_subscriptable, not_in_list.
  intros [H|[[t H]|[H|[[k H]|[cls H]]]]]; simpl in H; discriminate H.
Qed.

(** C9.  On a dataset, [catbox] called with an explicit list works on the
    caller's list object: when the target is in the list, its first
    occurrence is gone from that object when the call ends (on every exit
    path), so the list is one shorter; when the target is not in the list
    (or is unset), the list is left as it was and the failed removal does
    not surface as an error. *)
Theorem catbox_removes_target_from_callers_list :
  forall (df : DataFrame) (l : list string) (target : option string)
         (fig_size : nat * nat) (save_fig : bool),
    let r := catbox (Some df) (Some l) target fig_size save_fig
               (enter (Some df) (Some l)) in
    (forall t, target = Some t -> In t l ->
       exists before after,
         l = before ++ t :: after /\ ~ In t before /\
         w_list (snd r) = Some (before ++ after) /\
         List.length (before ++ after) + 1 = List.length l) /\
    ((forall t, target = Some t -> ~ In t l) ->
       w_list (snd r) = Some l /\
       fst r <> inl (ValueError not_in_list)).
Proof.
  intros df l target fig_size save_fig r; subst r.
  rewrite catbox_list_after; split.
  - intros t -> Hin.
    destruct (list_remove_present t l Hin) as [b [a [Hl [Hn Hr]]]].
    exists b, a; simpl; rewrite Hr; repeat split; auto.
    rewrite Hl, !length_app; simpl; lia.
  - intros Habs; split.
    + destruct target as [t|]; simpl; auto.
      now rewrite list_remove_absent by (apply Habs; reflexivity).
    + intros H; apply catbox_raises in H.
      exact (not_in_list_is_swallowed H).
Qed.

(** C8, as the code has it.  When the target is not a column of the
    dataset, [catbox] fails at the subscript [data[target]] with a
    [KeyError], before anything is drawn and before the counting column is
    added.  [scatterplot] makes no check of the target itself: with a
    separator that is unset or a column and at least one feature to plot,
    the call fails at the first feature, with the [ValueError] the plotting
    library raises for a variable that is no column, after the figure has
    been opened and the chart requested; with no feature to plot it returns
    normally. *)
Theorem unknown_target_fails_in_catbox_and_at_the_first_scatter :
  forall (df : DataFrame) (features : option (list string)) (t : string)
         (separate_by : option string) (fig_size : nat * nat) (save_fig : bool),
    let c := catbox (Some df) features (Some t) fig_size save_fig
               (enter (Some df) features) in
    let s := scatterplot (Some df) features (Some t) separate_by fig_size save_fig
               (enter (Some df) features) in
    ~ In t (columns df) ->
    known_separator df separate_by ->
    (fst c = inl (KeyError (Some t)) /\
     w_out (snd c) = [] /\
     w_data (snd c) = Some df) /\
    (forall f0 rest,
       effective get_num_feats df features = f0 :: rest ->
       fst s = inl (FromLibrary LibValueError) /\
       w_out (snd s) = [Figure fig_size; SnsScatterplot f0 t separate_by] /\
       w_data (snd s) = Some df) /\
    (effective get_num_feats df features = [] ->
       fst s = inr tt /\ w_out (snd s) = []).
Proof.
  intros df features t separate_by fig_size save_fig c s Ht Hs; subst c s.
  rewrite catbox_unknown_target by exact Ht.
  split; [repeat split|]; split.
  - intros f0 rest E.
    rewrite (scatterplot_unknown_target _ _ _ _ _ _ f0 rest) by assumption.
    repeat split.
  - intros E; rewrite scatterplot_without_features by assumption.
    split; reflexivity.
Qed.

(* ------------------------------------------------------------------- *)
(** *** catbox and the counting column                                   *)
(* ------------------------------------------------------------------- *)

Lemma columns_replace_column c s (l : list (string * Series)) :
  map fst (replace_column c s l) = map fst l.
Proof.
  induction l as [|[k old] r IH]; simpl; auto.
  destruct (String.eqb c k); simpl; congruence.
Qed.

Lemma has_column_setitem df c s : has_column (setitem df c s) c = true.
Proof.
  unfold setitem; destruct (has_column df c) eqn:E.
  - unfold has_column, columns in *; simpl.
    now rewrite columns_replace_column.
  - apply has_column_in; unfold columns; simpl.
    rewrite map_app; apply in_or_app; right; now left.
Qed.

Lemma filter_other_columns c (l : list (string * Series)) :
  ~ In c (map fst l) ->
  filter (fun kv => negb (String.eqb c (fst kv))) l = l.
Proof.
  induction l as [|[k s] r IH]; simpl; intros H; auto.
  destruct (String.eqb c k) eqn:E.
  - apply String.eqb_eq in E; subst; exfalso; apply H; now left.
  - simpl; rewrite IH; auto.
Qed.

(** Adding a column that was not there and dropping it gives the dataset
    back. *)
Lemma drop_setitem_fresh df c s :
  ~ In c (columns df) -> drop (setitem df c s) c = inr df.
Proof.
  intros H; unfold drop; rewrite has_column_setitem.
  unfold setitem.
  destruct (has_column df c) eqn:E.
  - apply has_column_in in E; contradiction.
  - simpl; rewrite filter_app; simpl.
    rewrite String.eqb_refl; simpl; rewrite app_nil_r.
    rewrite filter_other_columns by exact H.
    now destruct df.
Qed.

Lemma drop_with_dummy df :
  ~ In dummy_count (columns df) -> drop (with_dummy df) dummy_count = inr df.
Proof. apply drop_setitem_fresh. Qed.

Lemma drop_with_dummy_succeeds df :
  exists df2, drop (with_dummy df) dummy_count = inr df2.
Proof.
  unfold drop, with_dummy; rewrite has_column_setitem; eauto.
Qed.

(** [catbox] on a dataset whose target column has at most 8 distinct
    values, unfolded up to its loop. *)
Lemma catbox_past_guard df cat_features t s fig_size save_fig :
  lookup t (cols df) = Some s ->
  List.length (unique s) <= 8 ->
  catbox (Some df) cat_features (Some t) fig_size save_fig
    (enter (Some df) cat_features)
  = bind (for_each (catbox_features df cat_features (Some t))
            (catbox_body (Some (with_dummy df)) (Some t) fig_size save_fig))
      (fun _ => df2 <- lift (drop (with_dummy df) dummy_count) ;;
                store_data df2)
      (loop_start df cat_features (Some t)).
Proof.
  intros Hs Hn; rewrite catbox_unfold.
  unfold nunique, getitem; rewrite Hs; step.
  apply Nat.leb_le in Hn; rewrite Nat.ltb_antisym, Hn; reflexivity.
Qed.

(** X14.  A normal return gives the caller the dataset back as it was,
    provided it had no column of the counting column's name. *)
Lemma catbox_return_restores_data df cat_features target fig_size save_fig :
  ~ In dummy_count (columns df) ->
  let r := catbox (Some df) cat_features target fig_size save_fig
             (enter (Some df) cat_features) in
  fst r = inr tt -> w_data (snd r) = Some df.
Proof.
  intros Hd r; subst r; rewrite catbox_unfold.
  generalize (after_remove df cat_features target); intros w0.
  unfold bind at 1; unfold nunique, bind, lift, ret.
  destruct (getitem (Some df) target) as [e|s]; simpl; [discriminate|].
  destruct (8 <? List.length (unique s))%nat; simpl; [discriminate|].
  unfold store_data at 1; simpl.
  destruct (for_each _ _ _) as [[e|[]] w2]; simpl; [discriminate|].
  now rewrite drop_with_dummy by exact Hd.
Qed.

(** X15.  An exception raised past the cardinality guard leaves the
    counting column in the caller's dataset. *)
Lemma catbox_raise_in_loop_leaks df cat_features t s fig_size save_fig e :
  lookup t (cols df) = Some s ->
  List.length (unique s) <= 8 ->
  let r := catbox (Some df) cat_features (Some t) fig_size save_fig
             (enter (Some df) cat_features) in
  fst r = inl e ->
  w_data (snd r) = Some (with_dummy df)
  /\ In dummy_count (columns (with_dummy df)).
Proof.
  intros Hs Hn r; subst r; rewrite (catbox_past_guard _ _ _ _ _ _ Hs Hn).
  set (w1 := loop_start df cat_features (Some t)).
  set (loop := for_each (catbox_features df cat_features (Some t))
                 (catbox_body (Some (with_dummy df)) (Some t) fig_size save_fig)).
  assert (Hw : w_data (snd (loop w1)) = Some (with_dummy df)).
  { apply (only_logs_for_each _ _ (catbox_body_only_logs _ _ _ _) w1). }
  destruct (drop_with_dummy_succeeds df) as [df2 E].
  unfold bind, lift; rewrite E.
  destruct (loop w1) as [[e'|[]] w2]; simpl in *.
  - intros _; split; [exact Hw|].
    apply has_column_in, has_column_setitem.
  - discriminate.
Qed.

(** X16.  More than 8 target classes are refused before the counting
    column is added and before anything is drawn. *)
Lemma catbox_rejects_more_than_8 df cat_features t fig_size save_fig :
  8 < distinct df t ->
  catbox (Some df) cat_features (Some t) fig_size save_fig
    (enter (Some df) cat_features)
  = (inl (AttributeError "Target categories must be less than seven"),
     after_remove df cat_features (Some t)).
Proof.
  intros H; destruct (distinct_positive_is_column _ _ _ H) as [s [Hs Hd]].
  rewrite catbox_unfold; unfold nunique, getitem; rewrite Hs; step.
  rewrite Hd in H; apply Nat.ltb_lt in H; now rewrite H.
Qed.

(** With nothing left to loop over, up to 8 target classes pass: the
    six-class check sits inside the loop. *)
Lemma catbox_without_features_returns df cat_features t s fig_size save_fig :
  lookup t (cols df) = Some s ->
  List.length (unique s) <= 8 ->
  catbox_features df cat_features (Some t) = [] ->
  let r := catbox (Some df) cat_features (Some t) fig_size save_fig
             (enter (Some df) cat_features) in
  fst r = inr tt /\ w_out (snd r) = [].
Proof.
  intros Hs Hn Hf r; subst r.
  rewrite (catbox_past_guard _ _ _ _ _ _ Hs Hn), Hf; simpl.
  destruct (drop_with_dummy_succeeds df) as [df2 E].
  unfold bind, ret, lift; simpl; rewrite E; simpl; auto.
Qed.



(** A listed name that is not a column stops [countplot] at that name, with
    a [KeyError]; the features before it have been handled. *)
Lemma countplot_stops_at_unknown_feature df separate_by fig_size save_fig
    (before after : list string) (x : string) :
  known_separator df separate_by ->
  (forall f, In f before -> In f (columns df)) ->
  ~ In x (columns df) ->
  forall w,
    countplot (Some df) (Some (before ++ x :: after)) separate_by fig_size save_fig w
    = (inl (KeyError (Some x)),
       log (flat_map (countplot_block df separate_by fig_size save_fig) before) w).
Proof.
  intros Hk Hb Hx w; unfold countplot.
  rewrite (for_each_raises (countplot_block df separate_by fig_size save_fig)
             _ before after x (KeyError (Some x)) []).
  - now rewrite app_nil_r.
  - intros f Hf; apply countplot_body_logs; auto.
  - apply countplot_body_missing, Hx.
Qed.

(** The same name stops [class_count] in its display loop, before it hands
    over to [countplot]: nothing is drawn. *)
Lemma class_count_stops_at_unknown_feature df plot save_fig
    (before after : list string) (x : string) :
  (forall f, In f before -> In f (columns df)) ->
  ~ In x (columns df) ->
  forall w,
    class_count (Some df) (Some (before ++ x :: after)) plot save_fig w
    = (inl (KeyError (Some x)),
       log (flat_map class_count_block before
            ++ [Print ("Class Count for " ++ x)]) w).
Proof.
  intros Hb Hx w; unfold class_count.
  apply bind_raise.
  apply (for_each_raises class_count_block).
  - intros f Hf; apply class_count_body_logs, Hb, Hf.
  - apply class_count_body_missing, Hx.
Qed.

(* ------------------------------------------------------------------- *)
(** *** What a computation sends out                                     *)
(* ------------------------------------------------------------------- *)

Lemma emits_only_bind {A B : Type} (P : event -> Prop) (m : M A) (k : A -> M B) :
  emits_only P m -> (forall a, emits_only P (k a)) -> emits_only P (bind m k).
Proof.
  intros Hm Hk w; unfold bind.
  destruct (Hm w) as [t1 [E1 F1]]; destruct (m w) as [[e|a] w']; simpl in *.
  - exists t1; now split.
  - destruct (Hk a w') as [t2 [E2 F2]]; exists (t1 ++ t2); split.
    + now rewrite E2, E1, app_assoc.
    + apply Forall_app; now split.
Qed.

Lemma emits_only_quiet {A : Type} (P : event -> Prop) (m : M A) :
  (forall w, w_out (snd (m w)) = w_out w) -> emits_only P m.
Proof. intros H w; exists []; rewrite app_nil_r; split; auto. Qed.

Lemma emits_only_ret {A : Type} (P : event -> Prop) (a : A) : emits_only P (ret a).
Proof. now apply emits_only_quiet. Qed.

Lemma emits_only_raise {A : Type} (P : event -> Prop) (e : exn) :
  emits_only P (@raise A e).
Proof. now apply emits_only_quiet. Qed.

Lemma emits_only_lift {A : Type} (P : event -> Prop) (r : exn + A) :
  emits_only P (lift r).
Proof. now apply emits_only_quiet. Qed.

Lemma emits_only_store_data (P : event -> Prop) (df : DataFrame) :
  emits_only P (store_data df).
Proof. now apply emits_only_quiet. Qed.

Lemma emits_only_store_list (P : event -> Prop) (l : list string) :
  emits_only P (store_list l).
Proof. now apply emits_only_quiet. Qed.

Lemma emits_only_emit (P : event -> Prop) (e : event) :
  P e -> emits_only P (emit e).
Proof. intros H w; exists [e]; split; auto. Qed.

Lemma emits_only_for_each {A : Type} (P : event -> Prop) (body : A -> M unit)
    (l : list A) :
  (forall x, emits_only P (body x)) -> emits_only P (for_each l body).
Proof.
  intros Hb; induction l as [|x r IH]; simpl.
  - apply emits_only_ret.
  - apply emits_only_bind; auto.
Qed.

Ltac emits :=
  unfold when;
  repeat (first [ apply emits_only_ret | apply emits_only_raise
                | apply emits_only_lift
                | apply emits_only_store_data | apply emits_only_store_list
                | apply emits_only_emit; solve [simpl; auto | reflexivity]
                | apply emits_only_for_each; intros ?
                | apply emits_only_bind; [ | intros ? ]
                | match goal with
                  | |- emits_only _ (when _ _) => unfold when; cbv iota
                  | |- emits_only _ (if ?b then _ else _) => destruct b
                  | |- emits_only _ (match ?o with Some _ => _ | None => _ end) =>
                      destruct o
                  | |- emits_only _ (let (_, _) := ?p in _) => destruct p
                  | |- emits_only _ (let _ := _ in _) => cbv zeta
                  end ]).

Lemma draws_nothing_rendered (t : list event) :
  Forall draws_nothing t -> rendered_features t = [].
Proof.
  induction 1 as [|e r He _ IH]; simpl; auto.
  unfold draws_nothing in He; now rewrite He.
Qed.

Lemma last_char_append (s t : string) :
  t <> EmptyString -> last_char (s ++ t) = last_char t.
Proof.
  intros Ht; induction s as [|c s IH]; simpl; auto.
  rewrite IH; destruct (s ++ t)%string eqn:E; auto.
  destruct s; simpl in E; [contradiction | discriminate].
Qed.


(* ------------------------------------------------------------------- *)
(** *** What the functions leave alone                                   *)
(* ------------------------------------------------------------------- *)

(** X1.  Apart from [catbox], no function of the module changes the dataset
    or the feature list it is given, on any input and on any exit path: all
    they do is issue commands or raise. *)
Theorem plotting_functions_leave_dataset_and_list_alone :
  forall (data : option DataFrame) (features : option (list string))
         (target separate_by : option string) (bins : option nat)
         (show_dist_type large_data plot save_fig : bool) (fig_size : nat * nat),
    only_logs (countplot data features separate_by fig_size save_fig) /\
    only_logs (plot_missing data) /\
    only_logs (boxplot data features target fig_size large_data save_fig) /\
    only_logs (violinplot data features target fig_size save_fig) /\
    only_logs (histogram data features bins show_dist_type fig_size save_fig) /\
    only_logs (class_count data features plot save_fig) /\
    only_logs (scatterplot data features target separate_by fig_size save_fig).
Proof.
  intros data features target separate_by bins show_dist_type large_data plot
         save_fig fig_size.
  assert (Hc : forall sv, only_logs (countplot data features separate_by fig_size sv)).
  { intros sv; unfold countplot, countplot_body, nunique;
      destruct data; frame. }
  assert (Hc' : forall l sv, only_logs (countplot data (Some l) None (5, 5) sv)).
  { intros l sv; unfold countplot, countplot_body, nunique;
      destruct data; frame. }
  repeat apply conj.
  - apply Hc.
  - unfold plot_missing; destruct data; frame.
  - unfold boxplot, boxplot_body, nunique; destruct target; [|frame].
    apply only_logs_bind; [frame|intros n].
    destruct (10 <? n)%nat; [frame|]; destruct data; frame.
  - unfold violinplot, violinplot_body, nunique; destruct target; [|frame].
    apply only_logs_bind; [frame|intros n].
    destruct (10 <? n)%nat; [frame|]; destruct data; frame.
  - unfold histogram, histogram_body; destruct data; frame.
  - unfold class_count, class_count_body; destruct data; [|frame].
    apply only_logs_bind; [frame|intros _]; destruct plot; [apply Hc'|frame].
  - unfold scatterplot, scatterplot_body; destruct data; [|frame].
    apply only_logs_bind; [destruct separate_by; frame|intros _].
    destruct target; frame.
Qed.

Lemma emits_only_from_enter {A : Type} (P : event -> Prop) (m : M A)
    (data : option DataFrame) (features : option (list string)) :
  emits_only P m -> Forall P (w_out (snd (m (enter data features)))).
Proof.
  intros H; destruct (H (enter data features)) as [t [E F]].
  now rewrite E.
Qed.

Lemma countplot_emits P data cat_features separate_by fig_size save_fig :
  (forall f, P (Print (too_large f))) -> P (Print newline) ->
  (forall f, P (SnsCountplot f separate_by)) ->
  P (Figure fig_size) -> P (Xticks 90) -> (forall t, P (Title t)) ->
  (save_fig = true -> forall n, P (SaveFig n)) ->
  emits_only P (countplot data cat_features separate_by fig_size save_fig).
Proof.
  intros H1 H2 H3 H4 H5 H6 H7.
  unfold countplot; destruct data as [df|]; [|apply emits_only_raise].
  apply emits_only_for_each; intros f; unfold countplot_body, nunique.
  apply emits_only_bind; [emits|intros n].
  destruct (30 <? n)%nat.
  - apply emits_only_bind; [|intros _]; apply emits_only_emit;
      [apply H1 | apply H2].
  - repeat (apply emits_only_bind;
            [first [ apply emits_only_lift
                   | apply emits_only_emit;
                     first [apply H3 | apply H4 | apply H5 | apply H6] ]
            |intros _]).
    destruct save_fig; simpl; [|apply emits_only_ret].
    apply emits_only_emit, H7; reflexivity.
Qed.

(** X2.  With [save_fig] false no function issues a [savefig] command, on
    any input and on any exit path. *)
Theorem nothing_is_saved_without_save_fig :
  forall (data : option DataFrame) (features : option (list string))
         (target separate_by : option string) (bins : option nat)
         (show_dist_type large_data plot : bool) (fig_size : nat * nat)
         (name : string),
    let w := enter data features in
    ~ In (SaveFig name)
        (w_out (snd (countplot data features separate_by fig_size false w))) /\
    ~ In (SaveFig name)
        (w_out (snd (boxplot data features target fig_size large_data false w))) /\
    ~ In (SaveFig name)
        (w_out (snd (violinplot data features target fig_size false w))) /\
    ~ In (SaveFig name)
        (w_out (snd (histogram data features bins show_dist_type fig_size false w))) /\
    ~ In (SaveFig name)
        (w_out (snd (catbox data features target fig_size false w))) /\
    ~ In (SaveFig name)
        (w_out (snd (class_count data features plot false w))) /\
    ~ In (SaveFig name)
        (w_out (snd (scatterplot data features target separate_by fig_size false w))).
Proof.
  intros data features target separate_by bins show_dist_type large_data plot
         fig_size name w.
  assert (K : forall (m : M unit), emits_only not_savefig m ->
                ~ In (SaveFig name) (w_out (snd (m w)))).
  { intros m Hm Hin.
    pose proof (emits_only_from_enter _ _ data features Hm) as F.
    rewrite Forall_forall in F; exact (F _ Hin). }
  assert (C : forall cf sep fs,
             emits_only not_savefig (countplot data cf sep fs false)).
  { intros cf sep fs; apply countplot_emits; simpl; auto; discriminate. }
  repeat apply conj; apply K.
  - apply C.
  - unfold boxplot, boxplot_body, nunique; destruct target; [|emits].
    apply emits_only_bind; [emits|intros n].
    destruct (10 <? n)%nat; [emits|]; destruct data; [|emits].
    apply emits_only_for_each; intros f; destruct large_data; emits.
  - unfold violinplot, violinplot_body, nunique; destruct target; [|emits].
    apply emits_only_bind; [emits|intros n].
    destruct (10 <? n)%nat; [emits|]; destruct data; emits.
  - unfold histogram, histogram_body; destruct data; [|emits].
    apply emits_only_for_each; intros f; destruct show_dist_type; emits.
  - unfold catbox, catbox_body, catbox_subplot, nunique; destruct data; [|emits].
    apply emits_only_bind; [destruct features; emits|intros l].
    emits.
  - unfold class_count, class_count_body; destruct data; [|emits].
    apply emits_only_bind; [emits|intros _]; destruct plot; [apply C|emits].
  - unfold scatterplot, scatterplot_body; destruct data; [|emits].
    apply emits_only_bind; [destruct separate_by; emits|intros _].
    destruct target; emits.
Qed.

(* ------------------------------------------------------------------- *)
(** *** boxplot and violinplot on an accepted target                     *)
(* ------------------------------------------------------------------- *)





Lemma distinct_of_lookup df c s :
  lookup c (cols df) = Some s -> distinct df c = List.length (unique s).
Proof. intros H; unfold distinct; now rewrite H. Qed.

(** The three ways [boxplot] can go on a dataset and a target name: the
    subscript fails, the cardinality guard refuses, or the loop is run. *)
Lemma boxplot_cases df num_features t fig_size large_data save_fig w :
  let r := boxplot (Some df) num_features (Some t) fig_size large_data save_fig w in
  (~ In t (columns df) /\ r = (inl (KeyError (Some t)), w))
  \/ (In t (columns df) /\ 10 < distinct df t
      /\ r = (inl (AttributeError "Target categories must be less than 10"), w))
  \/ (In t (columns df) /\ distinct df t <= 10
      /\ r = for_each (effective get_num_feats df num_features)
               (boxplot_body (Some df) large_data t fig_size save_fig) w).
Proof.
  intros r; subst r; unfold boxplot, nunique, getitem.
  destruct (lookup t (cols df)) as [s|] eqn:Hs; step.
  - pose proof (lookup_in_columns _ _ _ Hs) as Hc.
    rewrite <- (distinct_of_lookup _ _ _ Hs).
    destruct (10 <? distinct df t)%nat eqn:E; right.
    + left; apply Nat.ltb_lt in E; auto.
    + right; apply Nat.ltb_ge in E; repeat split; auto.
  - left; split; auto.
    intros Hc; apply in_columns_lookup in Hc; destruct Hc; congruence.
Qed.

Lemma violinplot_cases df num_features t fig_size save_fig w :
  let r := violinplot (Some df) num_features (Some t) fig_size save_fig w in
  (~ In t (columns df) /\ r = (inl (KeyError (Some t)), w))
  \/ (In t (columns df) /\ 10 < distinct df t
      /\ r = (inl (AttributeError "Target categories must be less than 10"), w))
  \/ (In t (columns df) /\ distinct df t <= 10
      /\ r = for_each (effective get_num_feats df num_features)
               (violinplot_body (Some df) t fig_size save_fig) w).
Proof.
  intros r; subst r; unfold violinplot, nunique, getitem.
  destruct (lookup t (cols df)) as [s|] eqn:Hs; step.
  - pose proof (lookup_in_columns _ _ _ Hs) as Hc.
    rewrite <- (distinct_of_lookup _ _ _ Hs).
    destruct (10 <? distinct df t)%nat eqn:E; right.
    + left; apply Nat.ltb_lt in E; auto.
    + right; apply Nat.ltb_ge in E; repeat split; auto.
  - left; split; auto.
    intros Hc; apply in_columns_lookup in Hc; destruct Hc; congruence.
Qed.

(** The plotting loops raise nothing but what the library raises. *)
Lemma boxplot_loop_raises data large_data t fig_size save_fig (l : list string) :
  may_raise from_library
    (for_each l (boxplot_body data large_data t fig_size save_fig)).
Proof.
  apply may_raise_for_each; intros f; unfold boxplot_body.
  raises; apply may_raise_lift; intros e H; apply (categorical_raises _ _ _ _ H).
Qed.

Lemma violinplot_loop_raises data t fig_size save_fig (l : list string) :
  may_raise from_library (for_each l (violinplot_body data t fig_size save_fig)).
Proof.
  apply may_raise_for_each; intros f; unfold violinplot_body.
  raises; apply may_raise_lift; intros e H; apply (categorical_raises _ _ _ _ H).
Qed.

(** X3.  On a dataset and a target name, [boxplot] and [violinplot] raise
    their cardinality error exactly when the target is a column with more
    than 10 distinct values (ten classes are accepted) and the [KeyError] of
    the target exactly when it is no column; the feature list plays no part
    in either decision, and once the target is accepted only a library call
    can still fail. *)
Theorem boxplot_violinplot_refuse_the_target_exactly_above_10_classes :
  forall (df : DataFrame) (num_features : option (list string)) (t : string)
         (fig_size : nat * nat) (large_data save_fig : bool) (w : world),
    let b := boxplot (Some df) num_features (Some t) fig_size large_data save_fig w in
    let v := violinplot (Some df) num_features (Some t) fig_size save_fig w in
    let too_many := AttributeError "Target categories must be less than 10" in
    (fst b = inl too_many <-> In t (columns df) /\ 10 < distinct df t) /\
    (fst v = inl too_many <-> In t (columns df) /\ 10 < distinct df t) /\
    (fst b = inl (KeyError (Some t)) <-> ~ In t (columns df)) /\
    (fst v = inl (KeyError (Some t)) <-> ~ In t (columns df)) /\
    (forall e, In t (columns df) -> distinct df t <= 10 ->
               (fst b = inl e -> from_library e) /\
               (fst v = inl e -> from_library e)).
Proof.
  intros df num_features t fig_size large_data save_fig w b v too_many.
  assert (L : forall l e,
             fst (for_each l (boxplot_body (Some df) large_data t fig_size save_fig) w)
             = inl e -> from_library e).
  { intros l e H; exact (boxplot_loop_raises _ _ _ _ _ l w e H). }
  assert (L' : forall l e,
             fst (for_each l (violinplot_body (Some df) t fig_size save_fig) w)
             = inl e -> from_library e).
  { intros l e H; exact (violinplot_loop_raises _ _ _ _ l w e H). }
  assert (N : forall e, from_library e -> e <> too_many /\ e <> KeyError (Some t)).
  { intros e [cls ->]; split; discriminate. }
  subst b v.
  destruct (boxplot_cases df num_features t fig_size large_data save_fig w)
    as [[H1 Eb]|[[H1 [H2 Eb]]|[H1 [H2 Eb]]]];
  destruct (violinplot_cases df num_features t fig_size save_fig w)
    as [[H1' Ev]|[[H1' [H2' Ev]]|[H1' [H2' Ev]]]];
  try contradiction; try lia; rewrite Eb, Ev; simpl.
  - split; [|split; [|split; [|split]]].
    + split; [discriminate | intros [K _]; contradiction].
    + split; [discriminate | intros [K _]; contradiction].
    + split; auto.
    + split; auto.
    + intros e K; contradiction.
  - split; [|split; [|split; [|split]]].
    + split; auto.
    + split; auto.
    + split; [discriminate | intros K; contradiction].
    + split; [discriminate | intros K; contradiction].
    + intros e _ K; lia.
  - split; [|split; [|split; [|split]]].
    + split; [|intros [_ K]; lia].
      intros K; exfalso; exact (proj1 (N _ (L _ _ K)) eq_refl).
    + split; [|intros [_ K]; lia].
      intros K; exfalso; exact (proj1 (N _ (L' _ _ K)) eq_refl).
    + split; [|intros K; contradiction].
      intros K; exfalso; exact (proj2 (N _ (L _ _ K)) eq_refl).
    + split; [|intros K; contradiction].
      intros K; exfalso; exact (proj2 (N _ (L' _ _ K)) eq_refl).
    + intros e _ _; split; [apply L | apply L'].
Qed.






(* ------------------------------------------------------------------- *)
(** *** When the loops over features go through                          *)
(* ------------------------------------------------------------------- *)





Lemma scatterplot_loop_raises data t separate_by fig_size save_fig (l : list string) :
  may_raise from_library
    (for_each l (scatterplot_body data t separate_by fig_size save_fig)).
Proof.
  apply may_raise_for_each; intros f; unfold scatterplot_body.
  raises; apply may_raise_lift; intros e H.
  apply interpret_raises in H; subst e; now exists LibValueError.
Qed.

(** X8.  On a dataset, [scatterplot] makes two checks of its own, the
    separator first and the target second: an unknown separator is the error
    reported even when the target is missing too, a missing target is
    reported once the separator is unset or a column, and a call refused by
    either check has sent nothing and changed nothing.  Whatever else a call
    raises is raised inside a library call. *)
Theorem scatterplot_checks_separator_then_target :
  forall (df : DataFrame) (num_features : option (list string))
         (target separate_by : option string) (fig_size : nat * nat)
         (save_fig : bool),
    let w := enter (Some df) num_features in
    let r := scatterplot (Some df) num_features target separate_by fig_size save_fig w in
    (forall s, separate_by = Some s -> ~ In s (columns df) ->
       r = (inl (ValueError (s ++ " not found in data columns")), w)) /\
    (known_separator df separate_by -> target = None ->
       r = (inl (ValueError "Target value cannot be None"), w)) /\
    (forall e, fst r = inl e ->
       (exists s, separate_by = Some s /\ ~ In s (columns df)
                  /\ e = ValueError (s ++ " not found in data columns"))
       \/ (known_separator df separate_by /\ target = None
           /\ e = ValueError "Target value cannot be None")
       \/ (known_separator df separate_by /\ target <> None /\ from_library e)).
Proof.
  intros df num_features target separate_by fig_size save_fig w r.
  assert (K : known_separator df separate_by
              \/ exists s, separate_by = Some s /\ ~ In s (columns df)).
  { destruct separate_by as [s|]; simpl; auto.
    destruct (in_dec string_dec s (columns df)); eauto. }
  assert (T : known_separator df separate_by -> target = None ->
              r = (inl (ValueError "Target value cannot be None"), w)).
  { intros Hk ->; subst r; unfold scatterplot.
    now rewrite (bind_ok _ _ _ _ _ (scatterplot_separator_check_passes df _ w Hk)). }
  split; [|split; [exact T|]].
  - intros s -> Hs; subst r; now apply scatterplot_unknown_separator.
  - destruct K as [K|[s [-> Hs]]].
    + destruct target as [t|].
      * intros e H; right; right; split; [exact K|]; split; [discriminate|].
        subst r; unfold scatterplot in H.
        rewrite (bind_ok _ _ _ _ _ (scatterplot_separator_check_passes df _ w K)) in H.
        exact (scatterplot_loop_raises _ _ _ _ _ _ _ _ H).
      * intros e H; rewrite (T K eq_refl) in H; inversion H; subst e.
        right; left; auto.
    + intros e H; subst r.
      rewrite scatterplot_unknown_separator in H by exact Hs.
      inversion H; subst e; left; exists s; auto.
Qed.

(* ------------------------------------------------------------------- *)
(** *** The missing-data error                                           *)
(* ------------------------------------------------------------------- *)

Lemma getitem_not_missing_data data key e :
  getitem data key = inl e -> e <> ValueError data_is_none.
Proof.
  intros H; destruct (getitem_raises _ _ _ H) as [->|[k ->]]; discriminate.
Qed.

Lemma separator_error_not_missing_data (s : string) :
  ValueError (s ++ " not found in data columns") <> ValueError data_is_none.
Proof.
  intros H; inversion H as [E].
  apply (f_equal last_char) in E.
  rewrite last_char_append in E by discriminate.
  discriminate E.
Qed.

Lemma interpret_not_missing_data data names e :
  Seaborn.interpret data names = inl e -> e <> ValueError data_is_none.
Proof.
  intros H; apply interpret_raises in H; subst e; discriminate.
Qed.

Lemma countplot_not_missing_data df cat_features separate_by fig_size save_fig :
  may_raise (fun e => e <> ValueError data_is_none)
    (countplot (Some df) cat_features separate_by fig_size save_fig).
Proof.
  unfold countplot, countplot_body, nunique.
  raises; apply may_raise_lift;
    first [apply getitem_not_missing_data | apply interpret_not_missing_data].
Qed.

(** X9.  [countplot], [plot_missing], [histogram], [catbox], [class_count]
    and [scatterplot] raise the missing-data [ValueError] exactly when [data]
    is [None]: the guard fires on every call without a dataset, before
    anything else happens, and no call with a dataset ever ends in that
    error. *)
Theorem missing_data_error_iff_data_is_none :
  forall (data : option DataFrame) (features : option (list string))
         (target separate_by : option string) (bins : option nat)
         (show_dist_type plot save_fig : bool) (fig_size : nat * nat),
    let w := enter data features in
    let missing := @inl exn unit (ValueError data_is_none) in
    (fst (countplot data features separate_by fig_size save_fig w) = missing
     <-> data = None) /\
    (fst (plot_missing data w) = missing <-> data = None) /\
    (fst (histogram data features bins show_dist_type fig_size save_fig w) = missing
     <-> data = None) /\
    (fst (catbox data features target fig_size save_fig w) = missing
     <-> data = None) /\
    (fst (class_count data features plot save_fig w) = missing
     <-> data = None) /\
    (fst (scatterplot data features target separate_by fig_size save_fig w) = missing
     <-> data = None) /\
    (data = None ->
     snd (countplot data features separate_by fig_size save_fig w) = w /\
     snd (plot_missing data w) = w /\
     snd (histogram data features bins show_dist_type fig_size save_fig w) = w /\
     snd (catbox data features target fig_size save_fig w) = w /\
     snd (class_count data features plot save_fig w) = w /\
     snd (scatterplot data features target separate_by fig_size save_fig w) = w).
Proof.
  intros data features target separate_by bins show_dist_type plot save_fig
         fig_size w missing.
  destruct data as [df|].
  2: { repeat (apply conj; [split; intros _; reflexivity|]).
       intros _; repeat apply conj; reflexivity. }
  assert (K : forall m : M unit,
             may_raise (fun e => e <> ValueError data_is_none) m ->
             (fst (m w) = missing <-> Some df = None)).
  { intros m Hm; split; [|discriminate].
    intros H; exfalso; exact (Hm w _ H eq_refl). }
  apply conj; [apply K, countplot_not_missing_data|].
  apply conj; [apply K; unfold plot_missing; raises|].
  apply conj.
  { apply K; unfold histogram, histogram_body.
    raises; apply may_raise_lift, getitem_not_missing_data. }
  apply conj.
  { split; [|discriminate].
    intros H; apply catbox_raises in H; exfalso.
    unfold catbox_exn, not_subscriptable, data_is_none in H.
    destruct H as [H|[[t H]|[H|[[k H]|[cls H]]]]]; simpl in H; discriminate H. }
  apply conj.
  { apply K; unfold class_count, class_count_body.
    apply may_raise_bind.
    - raises; apply may_raise_lift, getitem_not_missing_data.
    - intros _; destruct plot; [apply countplot_not_missing_data|raises]. }
  apply conj; [|discriminate].
  apply K; unfold scatterplot, scatterplot_body.
  apply may_raise_bind.
  - destruct separate_by as [s|]; raises.
    apply may_raise_raise, separator_error_not_missing_data.
  - intros _; destruct target; raises;
      first [apply may_raise_raise; discriminate
            | apply may_raise_lift, interpret_not_missing_data].
Qed.

(** X10.  A call to [boxplot] or [violinplot] that raises anywhere but
    inside the plotting call leaves everything as it found it: every check
    of the two functions comes before the first figure, and in the loop only
    the plotting library raises. *)
Theorem boxplot_violinplot_checks_come_before_drawing :
  forall (data : option DataFrame) (num_features : option (list string))
         (target : option string) (fig_size : nat * nat)
         (large_data save_fig : bool) (w : world) (e : exn),
    ~ from_library e ->
    (fst (boxplot data num_features target fig_size large_data save_fig w) = inl e ->
     snd (boxplot data num_features target fig_size large_data save_fig w) = w) /\
    (fst (violinplot data num_features target fig_size save_fig w) = inl e ->
     snd (violinplot data num_features target fig_size save_fig w) = w).
Proof.
  intros data num_features target fig_size large_data save_fig w e N.
  destruct target as [t|]; [|split; reflexivity].
  destruct data as [df|]; [|split; reflexivity].
  split.
  - destruct (boxplot_cases df num_features t fig_size large_data save_fig w)
      as [[_ ->]|[[_ [_ ->]]|[_ [_ ->]]]]; simpl; auto.
    intros H; destruct N; exact (boxplot_loop_raises _ _ _ _ _ _ _ _ H).
  - destruct (violinplot_cases df num_features t fig_size save_fig w)
      as [[_ ->]|[[_ [_ ->]]|[_ [_ ->]]]]; simpl; auto.
    intros H; destruct N; exact (violinplot_loop_raises _ _ _ _ _ _ _ H).
Qed.

(* ------------------------------------------------------------------- *)
(** *** catbox: the loop on the dataset with the counting column         *)
(* ------------------------------------------------------------------- *)

Lemma lookup_replace_other c k s (l : list (string * Series)) :
  c <> k -> lookup k (replace_column c s l) = lookup k l.
Proof.
  intros N; induction l as [|[k' old] r IH]; simpl; auto.
  destruct (String.eqb c k') eqn:E; simpl.
  - apply String.eqb_eq in E; subst k'.
    destruct (String.eqb k c) eqn:E'; auto.
    apply String.eqb_eq in E'; congruence.
  - destruct (String.eqb k k'); auto.
Qed.

Lemma lookup_app_other c k s (l : list (string * Series)) :
  c <> k -> lookup k (l ++ [(c, s)]) = lookup k l.
Proof.
  intros N; induction l as [|[k' old] r IH]; simpl.
  - destruct (String.eqb k c) eqn:E; auto.
    apply String.eqb_eq in E; congruence.
  - destruct (String.eqb k k'); auto.
Qed.

(** Setting a column leaves the other columns as they were. *)
Lemma lookup_setitem_other df c s k :
  c <> k -> lookup k (cols (setitem df c s)) = lookup k (cols df).
Proof.
  intros N; unfold setitem; destruct (has_column df c); simpl.
  - now apply lookup_replace_other.
  - now apply lookup_app_other.
Qed.




Lemma emits_only_bind_lift {A B : Type} (P : event -> Prop) (r : exn + A)
    (k : A -> M B) :
  (forall a, r = inr a -> emits_only P (k a)) -> emits_only P (bind (lift r) k).
Proof.
  intros H; destruct r as [e|a].
  - apply emits_only_quiet; reflexivity.
  - intros w; apply (H a eq_refl).
Qed.

(** X11.  [catbox] draws nothing at all when the target has more than six
    distinct values (and is not itself named like the counting column):
    with more than eight the call is refused at once, and with seven or
    eight every pass of the loop either prints the skip message or raises. *)
Theorem catbox_draws_nothing_above_6_classes :
  forall (df : DataFrame) (cat_features : option (list string)) (t : string)
         (fig_size : nat * nat) (save_fig : bool),
    let r := catbox (Some df) cat_features (Some t) fig_size save_fig
               (enter (Some df) cat_features) in
    t <> dummy_count ->
    6 < distinct df t ->
    rendered_features (w_out (snd r)) = [] /\
    forall e, In e (w_out (snd r)) -> exists msg, e = Print msg.
Proof.
  intros df cat_features t fig_size save_fig r Nt Hd; subst r.
  rewrite catbox_unfold.
  set (quiet := fun e => draws_nothing e /\ exists msg, e = Print msg).
  assert (B : forall f, emits_only quiet
                (catbox_body (Some (with_dummy df)) (Some t) fig_size save_fig f)).
  { intros f.
    destruct (distinct_positive_is_column _ _ _ Hd) as [st [Hst Hn]].
    assert (G : getitem (Some (with_dummy df)) (Some t) = inr st).
    { unfold getitem, with_dummy.
      rewrite lookup_setitem_other by congruence; now rewrite Hst. }
    unfold catbox_body, nunique.
    apply emits_only_bind; [emits|intros n].
    destruct (10 <? n)%nat.
    - apply emits_only_emit; split; [reflexivity|eauto].
    - do 4 (apply emits_only_bind_lift; intros ? _).
      rewrite G; apply emits_only_bind_lift; intros s E; inversion E; subst s.
      cbv zeta; rewrite Hn in Hd; apply Nat.ltb_lt in Hd; rewrite Hd.
      apply emits_only_raise. }
  assert (C : emits_only quiet
    (bind (nunique (Some df) (Some t))
      (fun n =>
         if (8 <? n)%nat then
           raise (AttributeError "Target categories must be less than seven")
         else
           store_data (with_dummy df) ;;
           for_each (catbox_features df cat_features (Some t))
             (catbox_body (Some (with_dummy df)) (Some t) fig_size save_fig) ;;
           df2 <- lift (drop (with_dummy df) dummy_count) ;;
           store_data df2))).
  { unfold nunique.
    apply emits_only_bind; [emits|intros n].
    destruct (8 <? n)%nat; [apply emits_only_raise|].
    apply emits_only_bind; [apply emits_only_store_data|intros _].
    apply emits_only_bind; [apply emits_only_for_each, B|intros _].
    apply emits_only_bind; [apply emits_only_lift|intros df2].
    apply emits_only_store_data. }
  destruct (C (after_remove df cat_features (Some t))) as [out [E F]].
  rewrite E; simpl; split.
  - apply draws_nothing_rendered.
    eapply Forall_impl; [|exact F]; intros e [H _]; exact H.
  - intros e He; rewrite Forall_forall in F; exact (proj2 (F e He)).
Qed.









Lemma columns_filter c (l : list (string * Series)) :
  map fst (filter (fun kv => negb (String.eqb c (fst kv))) l)
  = filter (fun k => negb (String.eqb c k)) (map fst l).
Proof.
  induction l as [|[k s] r IH]; simpl; auto.
  destruct (String.eqb c k); simpl; congruence.
Qed.

(** Overwriting a column and dropping it leaves the other columns. *)
Lemma drop_setitem_existing df c s :
  In c (columns df) ->
  exists df',
    drop (setitem df c s) c = inr df'
    /\ columns df' = filter (fun k => negb (String.eqb c k)) (columns df).
Proof.
  intros H; unfold drop; rewrite has_column_setitem.
  eexists; split; [reflexivity|].
  unfold columns; cbn [cols]; rewrite columns_filter; f_equal.
  unfold setitem; apply has_column_in in H; rewrite H; cbn [cols].
  apply columns_replace_column.
Qed.

(** X13.  A dataset that already has a column named [dummy_count] loses it:
    [catbox] overwrites the column with its counter and, on a normal return,
    drops it, so the caller gets back the other columns only. *)
Theorem catbox_drops_an_existing_dummy_count_column :
  forall (df : DataFrame) (cat_features : option (list string))
         (target : option string) (fig_size : nat * nat) (save_fig : bool),
    let r := catbox (Some df) cat_features target fig_size save_fig
               (enter (Some df) cat_features) in
    In dummy_count (columns df) ->
    fst r = inr tt ->
    exists df',
      w_data (snd r) = Some df' /\
      columns df' = filter (fun c => negb (String.eqb dummy_count c)) (columns df) /\
      ~ In dummy_count (columns df').
Proof.
  intros df cat_features target fig_size save_fig r Hd; subst r.
  rewrite catbox_unfold.
  generalize (after_remove df cat_features target); intros w0.
  destruct (drop_setitem_existing df dummy_count (ones (nrows df)) Hd)
    as [df' [E C]].
  change (setitem df dummy_count (ones (nrows df))) with (with_dummy df) in E.
  unfold bind at 1; unfold nunique, bind, lift, ret.
  destruct (getitem (Some df) target) as [e|s]; simpl; [discriminate|].
  destruct (8 <? List.length (unique s))%nat; simpl; [discriminate|].
  unfold store_data at 1; simpl.
  destruct (for_each _ _ _) as [[e|[]] w2]; simpl; [discriminate|].
  rewrite E; simpl; intros _.
  exists df'; split; [reflexivity|]; split; [exact C|].
  rewrite C; intros H; apply filter_In in H; destruct H as [_ H].
  now rewrite String.eqb_refl in H.
Qed.

(* ------------------------------------------------------------------- *)
(** *** Saved figures                                                    *)
(* ------------------------------------------------------------------- *)






End Visualizations.

(* ===================================================================== *)
(** ** The functions on the sample datasets                                *)
(* ===================================================================== *)

Import Samples.



Lemma boxplot_violinplot_reject_bad_target_witness :
  bad_target (Some eleven_classes) (Some "t") /\
  boxplot every_column (Some eleven_classes) None (Some "t") (8, 8) false false
    (enter (Some eleven_classes) None)
  = (inl (AttributeError "Target categories must be less than 10"),
     enter (Some eleven_classes) None) /\
  violinplot every_column (Some eleven_classes) None (Some "t") (8, 8) false
    (enter (Some eleven_classes) None)
  = (inl (AttributeError "Target categories must be less than 10"),
     enter (Some eleven_classes) None).
Proof.
  assert (Hb : bad_target (Some eleven_classes) (Some "t")) by (vm_compute; lia).
  destruct (boxplot_violinplot_reject_bad_target every_column
              (Some eleven_classes) None (Some "t") (8, 8) false false Hb)
    as [Hbox [Hvio _]].
  exact (conj Hb (conj Hbox Hvio)).
Defined.





(** C8, as stated, fails: ["zzz"] is not a column, and [scatterplot] with
    nothing to plot returns normally. *)
Lemma scatterplot_accepts_an_unknown_target :
  ~ In "zzz" (columns seven_classes) /\
  scatterplot every_column (Some seven_classes) (Some []) (Some "zzz") None
    (10, 10) false (enter (Some seven_classes) (Some []))
  = (inr tt, enter (Some seven_classes) (Some [])).
Proof.
  split; [|reflexivity].
  simpl; intuition discriminate.
Qed.

Lemma unknown_target_witness :
  let c := catbox every_column (Some seven_classes) (Some ["f"]) (Some "zzz")
             (12, 6) false (enter (Some seven_classes) (Some ["f"])) in
  let s := scatterplot every_column (Some thirty_one) (Some ["wide"]) (Some "zzz")
             (Some "narrow") (10, 10) false
             (enter (Some thirty_one) (Some ["wide"])) in
  let s0 := scatterplot every_column (Some thirty_one) (Some []) (Some "zzz")
              (Some "narrow") (10, 10) false (enter (Some thirty_one) (Some [])) in
  ~ In "zzz" (columns seven_classes) /\
  ~ In "zzz" (columns thirty_one) /\
  known_separator thirty_one (Some "narrow") /\
  fst c = inl (KeyError (Some "zzz")) /\
  w_out (snd c) = [] /\
  w_data (snd c) = Some seven_classes /\
  fst s = inl (FromLibrary LibValueError) /\
  w_out (snd s) = [Figure (10, 10); SnsScatterplot "wide" "zzz" (Some "narrow")] /\
  fst s0 = inr tt /\
  w_out (snd s0) = [].
Proof.
  assert (Ht : ~ In "zzz" (columns seven_classes))
    by (simpl; intuition discriminate).
  assert (Ht' : ~ In "zzz" (columns thirty_one))
    by (simpl; intuition discriminate).
  assert (Hn : known_separator seven_classes None) by exact I.
  assert (Hs : known_separator thirty_one (Some "narrow")) by (simpl; auto).
  destruct (unknown_target_fails_in_catbox_and_at_the_first_scatter
              every_column every_column seven_classes (Some ["f"]) "zzz"
              None (12, 6) false Ht Hn)
    as [[Hc [Ho Hd]] _].
  destruct (unknown_target_fails_in_catbox_and_at_the_first_scatter
              every_column every_column thirty_one (Some ["wide"]) "zzz"
              (Some "narrow") (10, 10) false Ht' Hs)
    as [_ [Hfirst _]].
  destruct (Hfirst "wide" [] eq_refl) as [Hr [Hl _]].
  destruct (unknown_target_fails_in_catbox_and_at_the_first_scatter
              every_column every_column thirty_one (Some []) "zzz"
              (Some "narrow") (10, 10) false Ht' Hs)
    as [_ [_ Hnone]].
  destruct (Hnone eq_refl) as [Hr0 Hl0].
  exact (conj Ht (conj Ht' (conj Hs (conj Hc (conj Ho (conj Hd
           (conj Hr (conj Hl (conj Hr0 Hl0))))))))).
Defined.

Lemma catbox_removes_target_witness :
  let present := catbox every_column (Some seven_classes) (Some ["t"; "f"])
                   (Some "t") (12, 6) false
                   (enter (Some seven_classes) (Some ["t"; "f"])) in
  let absent := catbox every_column (Some seven_classes) (Some ["f"])
                  (Some "t") (12, 6) false
                  (enter (Some seven_classes) (Some ["f"])) in
  In "t" ["t"; "f"] /\
  (exists before after,
     ["t"; "f"] = before ++ "t" :: after /\ ~ In "t" before /\
     w_list (snd present) = Some (before ++ after) /\
     List.length (before ++ after) + 1 = 2) /\
  (forall t, Some "t" = Some t -> ~ In t ["f"]) /\
  w_list (snd absent) = Some ["f"] /\
  fst absent <> inl (ValueError not_in_list).
Proof.
  assert (Hin : In "t" ["t"; "f"]) by (simpl; auto).
  assert (Hout : forall t, Some "t" = Some t -> ~ In t ["f"]).
  { intros t E; inversion E; subst; simpl; intuition discriminate. }
  pose proof (proj1 (catbox_removes_target_from_callers_list
                       every_column seven_classes ["t"; "f"] (Some "t") (12, 6) false)
                "t" eq_refl Hin) as Hp.
  pose proof (proj2 (catbox_removes_target_from_callers_list
                       every_column seven_classes ["f"] (Some "t") (12, 6) false)
                Hout) as Ha.
  exact (conj Hin (conj Hp (conj Hout Ha))).
Defined.

(** C1 on the code: [catbox] on a seven-class target and a two-class feature
    raises the six-class [ValueError] from inside its loop, after it has
    added the counting column, and the caller's dataset is left with three
    columns instead of two. *)
Lemma catbox_leaves_dummy_count_on_error :
  let r := catbox every_column (Some seven_classes) (Some ["f"]) (Some "t")
             (12, 6) false (enter (Some seven_classes) (Some ["f"])) in
  fst r = inl (ValueError
                 "Target column: 't' must contain less than six unique classes") /\
  columns seven_classes = ["t"; "f"] /\
  option_map columns (w_data (snd r)) = Some ["t"; "f"; "dummy_count"] /\
  w_out (snd r) = [].
Proof. repeat split; reflexivity. Qed.

(** C3 on the code: with a target of the seven classes [A] to [G], [catbox]
    returns normally when no listed feature reaches the plotting branch:
    here the only feature has 14 distinct values and is skipped, and in the
    second call the only listed feature is the target itself. *)
Lemma catbox_accepts_seven_target_classes :
  distinct seven_by_many "t" = 7 /\
  catbox every_column (Some seven_by_many) (Some ["g"]) (Some "t") (12, 6) false
    (enter (Some seven_by_many) (Some ["g"]))
  = (inr tt,
     mkWorld (Some seven_by_many) (Some ["g"])
       [Print "g feature has too many categories and will not be ploted"]) /\
  distinct seven_classes "t" = 7 /\
  catbox every_column (Some seven_classes) (Some ["t"]) (Some "t") (12, 6) false
    (enter (Some seven_classes) (Some ["t"]))
  = (inr tt, mkWorld (Some seven_classes) (Some []) []).
Proof. repeat split; reflexivity. Qed.

(** C7 on the code: [countplot] is given a separator that is not a column
    and returns normally; its only feature has 31 distinct values and is
    skipped with the warning. *)
Lemma countplot_accepts_an_unknown_separator :
  ~ In "zzz" (columns thirty_one) /\
  countplot every_column (Some thirty_one) (Some ["wide"]) (Some "zzz") (5, 5)
    false (enter (Some thirty_one) (Some ["wide"]))
  = (inr tt,
     mkWorld (Some thirty_one) (Some ["wide"])
       [Print "Unique Values in wide is too large to plot"; Print newline]).
Proof.
  split; [|reflexivity].
  simpl; intuition discriminate.
Qed.


Lemma catbox_draws_nothing_above_6_classes_witness :
  let r := catbox every_column (Some seven_classes) None (Some "t") (12, 6) false
             (enter (Some seven_classes) None) in
  "t" <> dummy_count /\
  6 < distinct seven_classes "t" /\
  rendered_features (w_out (snd r)) = [].
Proof.
  assert (Nt : "t" <> dummy_count) by discriminate.
  assert (Hd : 6 < distinct seven_classes "t") by (vm_compute; lia).
  exact (conj Nt (conj Hd
           (proj1 (catbox_draws_nothing_above_6_classes
                     every_column seven_classes None "t" (12, 6) false Nt Hd)))).
Defined.


Lemma catbox_drops_an_existing_dummy_count_column_witness :
  let r := catbox every_column (Some with_counter) (Some []) (Some "t")
             (12, 6) false (enter (Some with_counter) (Some [])) in
  In dummy_count (columns with_counter) /\
  fst r = inr tt /\
  exists df',
    w_data (snd r) = Some df' /\
    columns df'
    = filter (fun c => negb (String.eqb dummy_count c)) (columns with_counter) /\
    ~ In dummy_count (columns df').
Proof.
  assert (Hd : In dummy_count (columns with_counter)) by (simpl; auto).
  assert (Hr : fst (catbox every_column (Some with_counter) (Some []) (Some "t")
                      (12, 6) false (enter (Some with_counter) (Some [])))
               = inr tt) by reflexivity.
  exact (conj Hd (conj Hr
           (catbox_drops_an_existing_dummy_count_column
              every_column with_counter (Some []) (Some "t") (12, 6) false Hd Hr))).
Defined.

Lemma catbox_return_restores_data_witness :
  let r := catbox every_column (Some seven_classes) (Some ["t"]) (Some "f")
             (12, 6) false (enter (Some seven_classes) (Some ["t"])) in
  ~ In dummy_count (columns seven_classes) /\
  fst r = inr tt /\
  w_data (snd r) = Some seven_classes.
Proof.
  assert (Hd : ~ In dummy_count (columns seven_classes))
    by (simpl; intuition discriminate).
  assert (Hr : fst (catbox every_column (Some seven_classes) (Some ["t"]) (Some "f")
                      (12, 6) false (enter (Some seven_classes) (Some ["t"])))
               = inr tt) by reflexivity.
  exact (conj Hd (conj Hr
           (catbox_return_restores_data
              every_column seven_classes (Some ["t"]) (Some "f") (12, 6) false
              Hd Hr))).
Defined.

Lemma catbox_raise_in_loop_leaks_witness :
  let r := catbox every_column (Some seven_classes) (Some ["f"]) (Some "t")
             (12, 6) false (enter (Some seven_classes) (Some ["f"])) in
  lookup "t" (cols seven_classes)
  = Some (labels ["A"; "B"; "C"; "D"; "E"; "F"; "G"]) /\
  List.length (unique (labels ["A"; "B"; "C"; "D"; "E"; "F"; "G"])) <= 8 /\
  fst r = inl (ValueError
                 "Target column: 't' must contain less than six unique classes") /\
  w_data (snd r) = Some (with_dummy seven_classes) /\
  In dummy_count (columns (with_dummy seven_classes)).
Proof.
  assert (Hs : lookup "t" (cols seven_classes)
               = Some (labels ["A"; "B"; "C"; "D"; "E"; "F"; "G"])) by reflexivity.
  assert (Hn : List.length (unique (labels ["A"; "B"; "C"; "D"; "E"; "F"; "G"])) <= 8)
    by (vm_compute; lia).
  assert (Hr : fst (catbox every_column (Some seven_classes) (Some ["f"]) (Some "t")
                      (12, 6) false (enter (Some seven_classes) (Some ["f"])))
               = inl (ValueError
                        "Target column: 't' must contain less than six unique classes"))
    by reflexivity.
  exact (conj Hs (conj Hn (conj Hr
           (catbox_raise_in_loop_leaks
              every_column seven_classes (Some ["f"]) "t" _ (12, 6) false _
              Hs Hn Hr)))).
Defined.

Lemma catbox_rejects_more_than_8_witness :
  8 < distinct eleven_classes "t" /\
  catbox every_column (Some eleven_classes) (Some ["t"; "n"]) (Some "t") (12, 6)
    false (enter (Some eleven_classes) (Some ["t"; "n"]))
  = (inl (AttributeError "Target categories must be less than seven"),
     after_remove eleven_classes (Some ["t"; "n"]) (Some "t")).
Proof.
  assert (Hd : 8 < distinct eleven_classes "t") by (vm_compute; lia).
  exact (conj Hd
           (catbox_rejects_more_than_8
              every_column eleven_classes (Some ["t"; "n"]) "t" (12, 6) false Hd)).
Defined.



Lemma boxplot_violinplot_refuse_the_target_witness :
  let b := boxplot every_column (Some seven_classes) (Some ["f"]) (Some "t") (8, 8)
             false false (enter (Some seven_classes) (Some ["f"])) in
  let v := violinplot every_column (Some seven_classes) (Some ["f"]) (Some "t")
             (8, 8) false (enter (Some seven_classes) (Some ["f"])) in
  In "t" (columns seven_classes) /\
  distinct seven_classes "t" <= 10 /\
  fst b = inl (FromLibrary LibTypeError) /\
  fst v = inl (FromLibrary LibTypeError) /\
  from_library (FromLibrary LibTypeError) /\
  fst b <> inl (AttributeError "Target categories must be less than 10").
Proof.
  assert (Ht : In "t" (columns seven_classes)) by (simpl; auto).
  assert (Hd : distinct seven_classes "t" <= 10) by (vm_compute; lia).
  assert (Hb : fst (boxplot every_column (Some seven_classes) (Some ["f"]) (Some "t")
                      (8, 8) false false (enter (Some seven_classes) (Some ["f"])))
               = inl (FromLibrary LibTypeError)) by reflexivity.
  assert (Hv : fst (violinplot every_column (Some seven_classes) (Some ["f"])
                      (Some "t") (8, 8) false
                      (enter (Some seven_classes) (Some ["f"])))
               = inl (FromLibrary LibTypeError)) by reflexivity.
  destruct (boxplot_violinplot_refuse_the_target_exactly_above_10_classes
              every_column seven_classes (Some ["f"]) "t" (8, 8) false false
              (enter (Some seven_classes) (Some ["f"])))
    as [Kb [_ [_ [_ Kl]]]].
  refine (conj Ht (conj Hd (conj Hb (conj Hv
           (conj (proj1 (Kl _ Ht Hd) Hb) _))))).
  intros H; apply Kb in H; destruct H as [_ H]; vm_compute in H; lia.
Defined.




Lemma scatterplot_checks_separator_then_target_witness :
  let w := enter (Some thirty_one) None in
  let r := scatterplot every_column (Some thirty_one) None None (Some "zzz")
             (10, 10) false w in
  let r' := scatterplot every_column (Some thirty_one) None None (Some "wide")
              (10, 10) false w in
  ~ In "zzz" (columns thirty_one) /\
  known_separator thirty_one (Some "wide") /\
  r = (inl (ValueError "zzz not found in data columns"), w) /\
  r' = (inl (ValueError "Target value cannot be None"), w).
Proof.
  assert (Hs : ~ In "zzz" (columns thirty_one))
    by (simpl; intuition discriminate).
  assert (Hk : known_separator thirty_one (Some "wide")) by (simpl; auto).
  destruct (scatterplot_checks_separator_then_target
              every_column thirty_one None None (Some "zzz") (10, 10) false)
    as [Hsep _].
  destruct (scatterplot_checks_separator_then_target
              every_column thirty_one None None (Some "wide") (10, 10) false)
    as [_ [Htar _]].
  exact (conj Hs (conj Hk (conj (Hsep "zzz" eq_refl Hs) (Htar Hk eq_refl)))).
Defined.

Lemma boxplot_violinplot_checks_come_before_drawing_witness :
  let w := enter (Some eleven_classes) None in
  let e := AttributeError "Target categories must be less than 10" in
  ~ from_library e /\
  fst (boxplot every_column (Some eleven_classes) None (Some "t") (8, 8) false false w)
  = inl e /\
  snd (boxplot every_column (Some eleven_classes) None (Some "t") (8, 8) false false w)
  = w /\
  fst (violinplot every_column (Some eleven_classes) None (Some "t") (8, 8) false w)
  = inl e /\
  snd (violinplot every_column (Some eleven_classes) None (Some "t") (8, 8) false w)
  = w.
Proof.
  set (w := enter (Some eleven_classes) None).
  set (e := AttributeError "Target categories must be less than 10").
  assert (N : ~ from_library e) by (intros [cls H]; discriminate H).
  assert (Hb : fst (boxplot every_column (Some eleven_classes) None (Some "t")
                      (8, 8) false false w) = inl e) by reflexivity.
  assert (Hv : fst (violinplot every_column (Some eleven_classes) None (Some "t")
                      (8, 8) false w) = inl e) by reflexivity.
  destruct (boxplot_violinplot_checks_come_before_drawing
              every_column (Some eleven_classes) None (Some "t") (8, 8) false false
              w e N) as [Kb Kv].
  exact (conj N (conj Hb (conj (Kb Hb) (conj Hv (Kv Hv))))).
Defined.

